(** * The StackImpact agent coordinator (internal/agent.go)

    A shallow embedding of [internal/agent.go]: the [Agent] struct, the
    process-wide [agentStarted] flag, [NewAgent], [Start], [RecordSegment],
    [RecordError], the two debug-gated log sinks, [recoverAndLog], [uuid] and
    [sha1String].

    Go's pointer-receiver methods become functions that take the [Agent]
    value and the process state [Proc] and return the updated ones.  Calls
    that leave the file (collaborator methods, writes to standard output)
    are recorded, in program order, in the [trace] of the process. *)

From Stdlib Require Import ZArith List String Ascii Bool Lia.
From Stdlib Require Import DecimalString.
Import ListNotations.

Local Open Scope string_scope.
Local Open Scope list_scope.
Local Open Scope Z_scope.

(** ** Machine integers *)

Module GoInt.

(** Two's-complement reduction of [x] to a signed [w]-bit integer. *)
Definition wrap (w : Z) (x : Z) : Z :=
  (x + 2 ^ (w - 1)) mod 2 ^ w - 2 ^ (w - 1).

(** [int64], and [int] on 64-bit targets. *)
Definition intSize : Z := 64.
Definition wrap64 (x : Z) : Z := wrap 64 x.
Definition wrapInt (x : Z) : Z := wrap intSize x.

Definition MaxInt : Z := 2 ^ (intSize - 1) - 1.
Definition MinInt : Z := - 2 ^ (intSize - 1).

(** [strconv.FormatInt(x, 10)] and [strconv.Itoa(x)]. *)
Definition FormatInt (x : Z) : string := NilZero.string_of_int (Z.to_int x).
Definition Itoa (x : Z) : string := FormatInt x.

End GoInt.

(** ** crypto/sha1 and encoding/hex *)

Module Sha1.

Definition mask32 : Z := 0xFFFFFFFF.

Definition add32 (x y : Z) : Z := Z.land (x + y) mask32.

Definition rotl32 (n : Z) (x : Z) : Z :=
  Z.land (Z.lor (Z.shiftl x n) (Z.shiftr x (32 - n))) mask32.

(** The chaining value [h [5]uint32] of [sha1.digest]. *)
Record state := mkState { h0 : Z; h1 : Z; h2 : Z; h3 : Z; h4 : Z }.

Definition init : state :=
  mkState 0x67452301 0xEFCDAB89 0x98BADCFE 0x10325476 0xC3D2E1F0.

(** Big-endian 32-bit words of a block. *)
Fixpoint words_of_bytes (bs : list Z) : list Z :=
  match bs with
  | b0 :: b1 :: b2 :: b3 :: rest =>
      Z.lor (Z.shiftl b0 24) (Z.lor (Z.shiftl b1 16) (Z.lor (Z.shiftl b2 8) b3))
        :: words_of_bytes rest
  | _ => []
  end.

Definition bytes_of_word (w : Z) : list Z :=
  [ Z.land (Z.shiftr w 24) 255; Z.land (Z.shiftr w 16) 255;
    Z.land (Z.shiftr w 8) 255; Z.land w 255 ].

Definition word_at (ws : list Z) (i : nat) : Z := nth i ws 0.

(** Message schedule: extends the 16 block words with [n] more. *)
Fixpoint schedule (n : nat) (ws : list Z) : list Z :=
  match n with
  | O => ws
  | S n' =>
      let i := List.length ws in
      let x := Z.lxor (Z.lxor (word_at ws (i - 3)) (word_at ws (i - 8)))
                      (Z.lxor (word_at ws (i - 14)) (word_at ws (i - 16))) in
      schedule n' (ws ++ [rotl32 1 x])
  end.

Definition round_f (i : nat) (b c d : Z) : Z :=
  if (i <? 20)%nat then Z.lor (Z.land b c) (Z.land (Z.lxor b mask32) d)
  else if (i <? 40)%nat then Z.lxor (Z.lxor b c) d
  else if (i <? 60)%nat then
    Z.lor (Z.lor (Z.land b c) (Z.land b d)) (Z.land c d)
  else Z.lxor (Z.lxor b c) d.

Definition round_k (i : nat) : Z :=
  if (i <? 20)%nat then 0x5A827999
  else if (i <? 40)%nat then 0x6ED9EBA1
  else if (i <? 60)%nat then 0x8F1BBCDC
  else 0xCA62C1D6.

Fixpoint rounds (i : nat) (ws : list Z) (s : state) : state :=
  match ws with
  | [] => s
  | w :: ws' =>
      let t := add32 (add32 (add32 (add32 (rotl32 5 (h0 s))
                                          (round_f i (h1 s) (h2 s) (h3 s)))
                                   (h4 s)) w) (round_k i) in
      rounds (S i) ws' (mkState t (h0 s) (rotl32 30 (h1 s)) (h2 s) (h3 s))
  end.

(** One 64-byte block. *)
Definition block (s : state) (bs : list Z) : state :=
  let r := rounds 0 (schedule 64 (words_of_bytes bs)) s in
  mkState (add32 (h0 s) (h0 r)) (add32 (h1 s) (h1 r)) (add32 (h2 s) (h2 r))
          (add32 (h3 s) (h3 r)) (add32 (h4 s) (h4 r)).

(** [digest.Write]: bytes are buffered and a block is compressed each time
    the buffer reaches 64 bytes. *)
Fixpoint absorb (s : state) (buf : list Z) (bs : list Z) : state * list Z :=
  match bs with
  | [] => (s, buf)
  | b :: bs' =>
      let buf' := buf ++ [b] in
      if (List.length buf' =? 64)%nat then absorb (block s buf') [] bs'
      else absorb s buf' bs'
  end.

(** The padding written by [digest.checkSum]: 0x80, zeros up to 56 mod 64,
    then the bit length as a big-endian 64-bit integer. *)
Definition padding (len : nat) : list Z :=
  let r := (len mod 64)%nat in
  let zeros := if (r <? 56)%nat then (55 - r)%nat else (119 - r)%nat in
  let bits := Z.of_nat len * 8 in
  (128 :: repeat 0 zeros)
    ++ bytes_of_word (Z.land (Z.shiftr bits 32) mask32)
    ++ bytes_of_word (Z.land bits mask32).

(** [sha1.New(); Write(msg); Sum(nil)]. *)
Definition sum (msg : list Z) : list Z :=
  let s := fst (absorb init [] (msg ++ padding (List.length msg))) in
  bytes_of_word (h0 s) ++ bytes_of_word (h1 s) ++ bytes_of_word (h2 s)
    ++ bytes_of_word (h3 s) ++ bytes_of_word (h4 s).

End Sha1.

Module Hex.

Definition hextable : list ascii :=
  list_ascii_of_string "0123456789abcdef".

Definition digit (n : Z) : ascii := nth (Z.to_nat n) hextable "?"%char.

(** [hex.EncodeToString]. *)
Fixpoint EncodeToString (bs : list Z) : string :=
  match bs with
  | [] => EmptyString
  | v :: bs' =>
      String (digit (Z.shiftr v 4))
             (String (digit (Z.land v 15)) (EncodeToString bs'))
  end.

Definition is_lower_hex (c : ascii) : bool :=
  let n := nat_of_ascii c in
  ((48 <=? n) && (n <=? 57) || (97 <=? n) && (n <=? 102))%nat.

End Hex.

(** [[]byte(s)]. *)
Definition bytes_of_string (s : string) : list Z :=
  map (fun c => Z.of_nat (nat_of_ascii c)) (list_ascii_of_string s).

(** [sha1String], agent.go:172. *)
Definition sha1String (s : string) : string :=
  Hex.EncodeToString (Sha1.sum (bytes_of_string s)).

(** ** Values, errors and package fmt *)

Module Fmt.

(** Values that implement [error]: the [*errors.errorString] built by
    [errors.New] and [fmt.Errorf], and any other implementation, given by
    its type name and the text its [Error] method returns. *)
Inductive GoError :=
| ErrorString (s : string)
| CustomError (type_name : string) (text : string).

Definition Error (e : GoError) : string :=
  match e with
  | ErrorString s => s
  | CustomError _ text => text
  end.

(** Dynamic values held by an [interface{}]; the nil interface is [None].
    [VOther] stands for a value of any further type that does not implement
    [error], given by the name of its type and its [%v] rendering. *)
Inductive value :=
| VInt (n : Z)
| VString (s : string)
| VBool (b : bool)
| VError (e : GoError)
| VOther (type_name : string) (rendering : string).

Definition iface : Type := option value.

Definition nl : string := String (ascii_of_nat 10) EmptyString.

(** The [%v] verb. *)
Definition formatV (v : iface) : string :=
  match v with
  | None => "<nil>"
  | Some (VInt n) => GoInt.FormatInt n
  | Some (VString s) => s
  | Some (VBool b) => if b then "true" else "false"
  | Some (VError e) => Error e
  | Some (VOther _ rendering) => rendering
  end.

(** The [%T] verb, used in the report of surplus operands. *)
Definition typeName (v : value) : string :=
  match v with
  | VInt _ => "int"
  | VString _ => "string"
  | VBool _ => "bool"
  | VError (ErrorString _) => "*errors.errorString"
  | VError (CustomError t _) => t
  | VOther t _ => t
  end.

Definition extraArg (v : iface) : string :=
  match v with
  | None => "<nil>"
  | Some x => (typeName x ++ "=" ++ formatV v)%string
  end.

Fixpoint join (sep : string) (l : list string) : string :=
  match l with
  | [] => ""
  | [x] => x
  | x :: rest => (x ++ sep ++ join sep rest)%string
  end.

Definition extra (args : list iface) : string :=
  match args with
  | [] => ""
  | _ => ("%!(EXTRA " ++ join ", " (map extraArg args) ++ ")")%string
  end.

(** [fmt.Sprintf] for the verbs this file uses: [%v] and the literal
    [%%].  A verb without operand prints [%!v(MISSING)], operands left
    over are reported after the text. *)
Fixpoint Sprintf (format : string) (args : list iface) : string :=
  match format with
  | EmptyString => extra args
  | String "%" EmptyString => ("%!(NOVERB)" ++ extra args)%string
  | String "%" (String "v" rest) =>
      match args with
      | a :: args' => (formatV a ++ Sprintf rest args')%string
      | [] => ("%!v(MISSING)" ++ Sprintf rest [])%string
      end
  | String "%" (String "%" rest) => String "%" (Sprintf rest args)
  | String c rest => String c (Sprintf rest args)
  end.

(** [fmt.Sprintln]: operands separated by spaces, then a newline. *)
Definition Sprintln (args : list iface) : string :=
  (join " " (map formatV args) ++ nl)%string.

(** [fmt.Errorf] without a [%w] verb. *)
Definition Errorf (format : string) (args : list iface) : GoError :=
  ErrorString (Sprintf format args).

End Fmt.
Import Fmt.

(** ** The data model *)

(** A pointer to an object outside this file; [None] is nil. *)
Definition ref : Type := option nat.

(** The collaborators that [Start] starts. *)
Inductive Collaborator :=
| ConfigLoader | MessageQueue | ProcessReporter | CPUReporter
| AllocationReporter | BlockReporter | SegmentReporter | ErrorReporter.

(** What leaves the file: a method call on a collaborator, with its receiver
    and arguments, or a write to standard output. *)
Inductive Event :=
| Stdout (s : string)
| CallStart (c : Collaborator) (r : ref)
| CallRecordSegment (r : ref) (path : list string) (duration : Z)
| CallRecordError (r : ref) (group : string) (err : GoError) (skipFrames : Z).

Definition AgentVersion : string := "1.2.2".
Definition SAASDashboardAddress : string := "https://agent-api.stackimpact.com".

(** [type Agent struct], agent.go:19. *)
Record Agent := mkAgent {
  nextId : Z;
  runId : string;
  runTs : Z;
  overheadLock : ref;
  apiRequest : ref;
  configLoader : ref;
  messageQueue : ref;
  processReporter : ref;
  cpuReporter : ref;
  allocationReporter : ref;
  blockReporter : ref;
  segmentReporter : ref;
  errorReporter : ref;
  DashboardAddress : string;
  AgentKey : string;
  AppName : string;
  AppVersion : string;
  AppEnvironment : string;
  HostName : string;
  Debug : bool;
  disableProfiling : bool
}.

(** The mutable state of the process: the package variable [agentStarted],
    the number of readings taken from the environment so far, the next free
    address, and the trace. *)
Record Proc := mkProc {
  agentStarted : bool;
  tick : nat;
  next_ref : nat;
  trace : list Event
}.

(** The operating environment: what the [n]-th reading of the clock and of
    the random source returns, and what [os.Hostname] returns. *)
Record Env := mkEnv {
  env_unix : nat -> Z;
  env_stamp : nat -> string;
  env_rand : nat -> Z;
  env_hostname : string * option GoError
}.

(** The exported fields, which the owning application assigns directly. *)
Record Options := mkOptions {
  optDashboardAddress : string;
  optAgentKey : string;
  optAppName : string;
  optAppVersion : string;
  optAppEnvironment : string;
  optHostName : string;
  optDebug : bool
}.

(** Field assignments [a.f = v]. *)
Definition set_nextId (v : Z) (a : Agent) : Agent :=
  mkAgent v (runId a) (runTs a) (overheadLock a) (apiRequest a)
    (configLoader a) (messageQueue a) (processReporter a) (cpuReporter a)
    (allocationReporter a) (blockReporter a) (segmentReporter a)
    (errorReporter a) (DashboardAddress a) (AgentKey a) (AppName a)
    (AppVersion a) (AppEnvironment a) (HostName a) (Debug a) (disableProfiling
    a).
Definition set_runId (v : string) (a : Agent) : Agent :=
  mkAgent (nextId a) v (runTs a) (overheadLock a) (apiRequest a)
    (configLoader a) (messageQueue a) (processReporter a) (cpuReporter a)
    (allocationReporter a) (blockReporter a) (segmentReporter a)
    (errorReporter a) (DashboardAddress a) (AgentKey a) (AppName a)
    (AppVersion a) (AppEnvironment a) (HostName a) (Debug a) (disableProfiling
    a).
Definition set_HostName (v : string) (a : Agent) : Agent :=
  mkAgent (nextId a) (runId a) (runTs a) (overheadLock a) (apiRequest a)
    (configLoader a) (messageQueue a) (processReporter a) (cpuReporter a)
    (allocationReporter a) (blockReporter a) (segmentReporter a)
    (errorReporter a) (DashboardAddress a) (AgentKey a) (AppName a)
    (AppVersion a) (AppEnvironment a) v (Debug a) (disableProfiling a).
Definition set_apiRequest (v : ref) (a : Agent) : Agent :=
  mkAgent (nextId a) (runId a) (runTs a) (overheadLock a) v (configLoader a)
    (messageQueue a) (processReporter a) (cpuReporter a) (allocationReporter
    a) (blockReporter a) (segmentReporter a) (errorReporter a)
    (DashboardAddress a) (AgentKey a) (AppName a) (AppVersion a)
    (AppEnvironment a) (HostName a) (Debug a) (disableProfiling a).
Definition set_configLoader (v : ref) (a : Agent) : Agent :=
  mkAgent (nextId a) (runId a) (runTs a) (overheadLock a) (apiRequest a) v
    (messageQueue a) (processReporter a) (cpuReporter a) (allocationReporter
    a) (blockReporter a) (segmentReporter a) (errorReporter a)
    (DashboardAddress a) (AgentKey a) (AppName a) (AppVersion a)
    (AppEnvironment a) (HostName a) (Debug a) (disableProfiling a).
Definition set_messageQueue (v : ref) (a : Agent) : Agent :=
  mkAgent (nextId a) (runId a) (runTs a) (overheadLock a) (apiRequest a)
    (configLoader a) v (processReporter a) (cpuReporter a) (allocationReporter
    a) (blockReporter a) (segmentReporter a) (errorReporter a)
    (DashboardAddress a) (AgentKey a) (AppName a) (AppVersion a)
    (AppEnvironment a) (HostName a) (Debug a) (disableProfiling a).
Definition set_processReporter (v : ref) (a : Agent) : Agent :=
  mkAgent (nextId a) (runId a) (runTs a) (overheadLock a) (apiRequest a)
    (configLoader a) (messageQueue a) v (cpuReporter a) (allocationReporter a)
    (blockReporter a) (segmentReporter a) (errorReporter a) (DashboardAddress
    a) (AgentKey a) (AppName a) (AppVersion a) (AppEnvironment a) (HostName a)
    (Debug a) (disableProfiling a).
Definition set_cpuReporter (v : ref) (a : Agent) : Agent :=
  mkAgent (nextId a) (runId a) (runTs a) (overheadLock a) (apiRequest a)
    (configLoader a) (messageQueue a) (processReporter a) v
    (allocationReporter a) (blockReporter a) (segmentReporter a)
    (errorReporter a) (DashboardAddress a) (AgentKey a) (AppName a)
    (AppVersion a) (AppEnvironment a) (HostName a) (Debug a) (disableProfiling
    a).
Definition set_allocationReporter (v : ref) (a : Agent) : Agent :=
  mkAgent (nextId a) (runId a) (runTs a) (overheadLock a) (apiRequest a)
    (configLoader a) (messageQueue a) (processReporter a) (cpuReporter a) v
    (blockReporter a) (segmentReporter a) (errorReporter a) (DashboardAddress
    a) (AgentKey a) (AppName a) (AppVersion a) (AppEnvironment a) (HostName a)
    (Debug a) (disableProfiling a).
Definition set_blockReporter (v : ref) (a : Agent) : Agent :=
  mkAgent (nextId a) (runId a) (runTs a) (overheadLock a) (apiRequest a)
    (configLoader a) (messageQueue a) (processReporter a) (cpuReporter a)
    (allocationReporter a) v (segmentReporter a) (errorReporter a)
    (DashboardAddress a) (AgentKey a) (AppName a) (AppVersion a)
    (AppEnvironment a) (HostName a) (Debug a) (disableProfiling a).
Definition set_segmentReporter (v : ref) (a : Agent) : Agent :=
  mkAgent (nextId a) (runId a) (runTs a) (overheadLock a) (apiRequest a)
    (configLoader a) (messageQueue a) (processReporter a) (cpuReporter a)
    (allocationReporter a) (blockReporter a) v (errorReporter a)
    (DashboardAddress a) (AgentKey a) (AppName a) (AppVersion a)
    (AppEnvironment a) (HostName a) (Debug a) (disableProfiling a).
Definition set_errorReporter (v : ref) (a : Agent) : Agent :=
  mkAgent (nextId a) (runId a) (runTs a) (overheadLock a) (apiRequest a)
    (configLoader a) (messageQueue a) (processReporter a) (cpuReporter a)
    (allocationReporter a) (blockReporter a) (segmentReporter a) v
    (DashboardAddress a) (AgentKey a) (AppName a) (AppVersion a)
    (AppEnvironment a) (HostName a) (Debug a) (disableProfiling a).

(** The owning application assigning the exported fields. *)
Definition configure (o : Options) (a : Agent) : Agent :=
  mkAgent (nextId a) (runId a) (runTs a) (overheadLock a) (apiRequest a)
    (configLoader a) (messageQueue a) (processReporter a) (cpuReporter a)
    (allocationReporter a) (blockReporter a) (segmentReporter a)
    (errorReporter a) (optDashboardAddress o) (optAgentKey o) (optAppName o)
    (optAppVersion o) (optAppEnvironment o) (optHostName o) (optDebug o)
    (disableProfiling a).

Definition set_agentStarted (b : bool) (p : Proc) : Proc :=
  mkProc b (tick p) (next_ref p) (trace p).

(** One more reading taken from the environment. *)
Definition advance (p : Proc) : Proc :=
  mkProc (agentStarted p) (S (tick p)) (next_ref p) (trace p).

(** A call that leaves the file, appended to the trace. *)
Definition emit (e : Event) (p : Proc) : Proc :=
  mkProc (agentStarted p) (tick p) (next_ref p) (trace p ++ [e]).

(** A freshly allocated object. *)
Definition alloc (p : Proc) : ref * Proc :=
  (Some (next_ref p),
   mkProc (agentStarted p) (tick p) (S (next_ref p)) (trace p)).

(** Modelled from the spec: the constructors [newAPIRequest],
    [newConfigLoader], [newMessageQueue] and the six [new...Reporter]
    functions are not in agent.go.  Construction "eagerly instantiates every
    collaborator" and "no collaborator performs observable work at this
    stage": each returns a fresh, non-nil reference and leaves the trace
    alone.  The collaborator methods called later ([start], [recordSegment],
    [recordError]) are recorded as events; they are taken to return normally
    and to leave the fields of the [Agent] as they are. *)
Definition newCollaborator (p : Proc) : ref * Proc := alloc p.

Section Coordinator.

Variable E : Env.

(** [time.Now().Unix()]. *)
Definition time_Now_Unix (p : Proc) : Z * Proc :=
  (GoInt.wrap64 (env_unix E (tick p)), advance p).

(** [time.Now().Format(time.StampMilli)]. *)
Definition time_Now_Stamp (p : Proc) : string * Proc :=
  (env_stamp E (tick p), advance p).

(** [rand.Intn(n)], for [0 < n]. *)
Definition rand_Intn (n : Z) (p : Proc) : Z * Proc :=
  (env_rand E (tick p) mod n, advance p).

(** [os.Hostname()]. *)
Definition os_Hostname : string * option GoError := env_hostname E.

(** [func (a *Agent) log], agent.go:139. *)
Definition log (a : Agent) (format : string) (values : list iface)
    (p : Proc) : Proc :=
  if Debug a then
    let (stamp, p1) := time_Now_Stamp p in
    emit (Stdout (Sprintf ("[" ++ stamp ++ "]" ++ " StackImpact "
                             ++ AgentVersion ++ ": " ++ format ++ nl)%string
                          values)) p1
  else p.

(** [func (a *Agent) error], agent.go:147. *)
Definition error (a : Agent) (err : GoError) (p : Proc) : Proc :=
  if Debug a then
    let (stamp, p1) := time_Now_Stamp p in
    let p2 := emit (Stdout (Sprintln
                [Some (VString ("[" ++ stamp ++ "]" ++ " StackImpact "
                                  ++ AgentVersion ++ ": Error")%string)])) p1 in
    emit (Stdout (Sprintln [Some (VError err)])) p2
  else p.

(** [func (a *Agent) uuid], agent.go:161. *)
Definition uuid (a : Agent) (p : Proc) : string * Agent * Proc :=
  let a1 := set_nextId (GoInt.wrap64 (nextId a + 1)) a in
  let (now, p1) := time_Now_Unix p in
  let (r, p2) := rand_Intn 1000000000 p1 in
  let uuid := (GoInt.FormatInt now ++ GoInt.Itoa r
                 ++ GoInt.FormatInt (nextId a1))%string in
  (sha1String uuid, a1, p2).

(** [func NewAgent], agent.go:45. *)
Definition NewAgent (p : Proc) : Agent * Proc :=
  let (ts, p1) := time_Now_Unix p in
  let (lock, p2) := alloc p1 in
  let a := mkAgent 0 "" ts lock None None None None None None None None None
                   SAASDashboardAddress "" "" "" "" "" false false in
  let '(id, a, p3) := uuid a p2 in
  let a := set_runId id a in
  let (r, p4) := newCollaborator p3 in
  let a := set_apiRequest r a in
  let (r, p5) := newCollaborator p4 in
  let a := set_configLoader r a in
  let (r, p6) := newCollaborator p5 in
  let a := set_messageQueue r a in
  let (r, p7) := newCollaborator p6 in
  let a := set_processReporter r a in
  let (r, p8) := newCollaborator p7 in
  let a := set_cpuReporter r a in
  let (r, p9) := newCollaborator p8 in
  let a := set_allocationReporter r a in
  let (r, p10) := newCollaborator p9 in
  let a := set_blockReporter r a in
  let (r, p11) := newCollaborator p10 in
  let a := set_segmentReporter r a in
  let (r, p12) := newCollaborator p11 in
  let a := set_errorReporter r a in
  (a, p12).

(** [func (a *Agent) Start], agent.go:86. *)
Definition Start (a : Agent) (p : Proc) : Agent * Proc :=
  if agentStarted p then
    (a, log a ("Agent configuration failed. "
                 ++ "Another agent has already been initialized.")%string [] p)
  else
    let p := set_agentStarted true p in
    let (a, p) :=
      if (HostName a =? "")%string then
        let (hostName, err) := os_Hostname in
        let p := match err with
                 | Some e => error a e p
                 | None => p
                 end in
        (set_HostName hostName a, p)
      else (a, p) in
    let p := emit (CallStart ConfigLoader (configLoader a)) p in
    let p := emit (CallStart MessageQueue (messageQueue a)) p in
    let p := emit (CallStart ProcessReporter (processReporter a)) p in
    let p := emit (CallStart CPUReporter (cpuReporter a)) p in
    let p := emit (CallStart AllocationReporter (allocationReporter a)) p in
    let p := emit (CallStart BlockReporter (blockReporter a)) p in
    let p := emit (CallStart SegmentReporter (segmentReporter a)) p in
    let p := emit (CallStart ErrorReporter (errorReporter a)) p in
    (a, log a "Agent started." [] p).

(** [func (a *Agent) RecordSegment], agent.go:115. *)
Definition RecordSegment (a : Agent) (path : list string) (duration : Z)
    (p : Proc) : Agent * Proc :=
  if negb (agentStarted p) then (a, p)
  else (a, emit (CallRecordSegment (segmentReporter a) path duration) p).

(** The type switch of agent.go:128-134. *)
Definition normalize (msg : iface) : GoError :=
  match msg with
  | Some (VError v) => v
  | v => Errorf "%v" [v]
  end.

(** [func (a *Agent) RecordError], agent.go:123. *)
Definition RecordError (a : Agent) (group : string) (msg : iface)
    (skipFrames : Z) (p : Proc) : Agent * Proc :=
  if negb (agentStarted p) then (a, p)
  else
    let err := normalize msg in
    (a, emit (CallRecordError (errorReporter a) group err
                              (GoInt.wrapInt (skipFrames + 1))) p).

(** *** Panics and the recovery wrapper *)

(** How a function body ends: it returns, or it panics with a value.  The
    value of a panic is never the nil interface (the run time replaces the
    operand of [panic(nil)] by a [*runtime.PanicNilError]). *)
Inductive Completion :=
| Returns
| Panics (v : value).

(** The builtin [recover], called directly by a deferred function: the
    value of the panic in flight, which stops, or nil. *)
Definition recover (c : Completion) : iface * Completion :=
  match c with
  | Returns => (None, Returns)
  | Panics v => (Some v, Returns)
  end.

(** [func (a *Agent) recoverAndLog], agent.go:155. *)
Definition recoverAndLog (a : Agent) (c : Completion) (p : Proc)
    : Completion * Proc :=
  let (err, c) := recover c in
  match err with
  | Some _ => (c, log a "Recovered from panic in agent: %v" [err] p)
  | None => (c, p)
  end.

(** A function body, which may assign fields of the agent. *)
Definition Body : Type := Agent -> Proc -> Completion * Agent * Proc.

(** A guarded operation: [defer a.recoverAndLog()] followed by [body]. *)
Definition guarded (body : Body) (a : Agent) (p : Proc)
    : Completion * Agent * Proc :=
  let '(c, a, p) := body a p in
  let (c, p) := recoverAndLog a c p in
  (c, a, p).

(** *** N sequential calls of the identifier generator *)

Fixpoint uuids (n : nat) (a : Agent) (p : Proc)
    : list string * Agent * Proc :=
  match n with
  | O => ([], a, p)
  | S n' =>
      let '(id, a, p) := uuid a p in
      let '(ids, a, p) := uuids n' a p in
      (id :: ids, a, p)
  end.

(** *** The life of a process *)

(** The agents constructed so far, by order of construction, and the
    process state they share. *)
Record System := mkSystem { proc : Proc; agents : list Agent }.

(** What the application and the collaborators can do with an agent. *)
Inductive Op :=
| OpNewAgent
| OpConfigure (i : nat) (o : Options)
| OpStart (i : nat)
| OpRecordSegment (i : nat) (path : list string) (duration : Z)
| OpRecordError (i : nat) (group : string) (msg : iface) (skipFrames : Z)
| OpLog (i : nat) (format : string) (values : list iface)
| OpError (i : nat) (err : GoError)
| OpUuid (i : nat).

Fixpoint store (i : nat) (a : Agent) (l : list Agent) : list Agent :=
  match l, i with
  | [], _ => []
  | _ :: l', O => a :: l'
  | x :: l', S i' => x :: store i' a l'
  end.

(** A method called on the [i]-th agent. *)
Definition call (i : nat) (f : Agent -> Proc -> Agent * Proc) (s : System)
    : System :=
  match nth_error (agents s) i with
  | Some a => let (a', p') := f a (proc s) in mkSystem p' (store i a' (agents s))
  | None => s
  end.

Definition exec (o : Op) (s : System) : System :=
  match o with
  | OpNewAgent =>
      let (a, p) := NewAgent (proc s) in mkSystem p (agents s ++ [a])
  | OpConfigure i o => call i (fun a p => (configure o a, p)) s
  | OpStart i => call i Start s
  | OpRecordSegment i path duration =>
      call i (fun a => RecordSegment a path duration) s
  | OpRecordError i group msg skipFrames =>
      call i (fun a => RecordError a group msg skipFrames) s
  | OpLog i format values => call i (fun a p => (a, log a format values p)) s
  | OpError i err => call i (fun a p => (a, error a err p)) s
  | OpUuid i => call i (fun a p => let '(_, a', p') := uuid a p in (a', p')) s
  end.

Definition run (ops : list Op) (s : System) : System :=
  fold_left (fun s o => exec o s) ops s.

End Coordinator.

(** A process that has just begun: [agentStarted] is false, nothing was
    called yet. *)
Definition boot : System := mkSystem (mkProc false 0 0 []) [].

(** ** Observations on traces and strings *)

(** The eight [start] calls of agent.go:101-108, by collaborator and
    receiver. *)
Definition startCalls (a : Agent) : list (Collaborator * ref) :=
  [ (ConfigLoader, configLoader a); (MessageQueue, messageQueue a);
    (ProcessReporter, processReporter a); (CPUReporter, cpuReporter a);
    (AllocationReporter, allocationReporter a);
    (BlockReporter, blockReporter a); (SegmentReporter, segmentReporter a);
    (ErrorReporter, errorReporter a) ].

(** The [start] calls of a trace, in order. *)
Fixpoint startEvents (t : list Event) : list (Collaborator * ref) :=
  match t with
  | [] => []
  | CallStart c r :: t' => (c, r) :: startEvents t'
  | _ :: t' => startEvents t'
  end.

(** The calls to collaborators of a trace, in order. *)
Definition isCall (e : Event) : bool :=
  match e with
  | Stdout _ => false
  | _ => true
  end.

Definition calls (t : list Event) : list Event := filter isCall t.

(** The writes to standard output of a trace, in order. *)
Definition isStdout (e : Event) : bool := negb (isCall e).

Definition printed (t : list Event) : list Event := filter isStdout t.

Fixpoint string_forall (f : ascii -> bool) (s : string) : bool :=
  match s with
  | EmptyString => true
  | String c s' => f c && string_forall f s'
  end.

Definition not_percent (c : ascii) : bool := negb (c =? "%")%char.

(** Forty lowercase hexadecimal digits. *)
Definition hex40 (s : string) : Prop :=
  String.length s = 40%nat /\ string_forall Hex.is_lower_hex s = true.

(** ** A concrete environment *)

Module Sample.

(** One second of wall-clock time in which the random source returns 31 at
    the fifth reading of the environment and 3 at the others; the host is
    called [web-1]. *)
Definition env : Env :=
  mkEnv (fun _ => 1500000000) (fun _ => "Jul 14 02:40:00.000")
        (fun n => if (n =? 4)%nat then 31 else 3) ("web-1", None).

(** An environment in which the host name cannot be obtained. *)
Definition env_nohost : Env :=
  mkEnv (fun _ => 1500000000) (fun _ => "Jul 14 02:40:00.000")
        (fun _ => 7) ("", Some (ErrorString "hostname: not available")).

Definition options (host : string) (debug : bool) : Options :=
  mkOptions SAASDashboardAddress "key" "app" "1.0" "prod" host debug.

(** The first and the second agent of a process, and the process after
    their construction. *)
Definition sys1 : System := exec env OpNewAgent boot.
Definition sys2 : System := exec env OpNewAgent sys1.
Definition agent1 : Agent := nth 0 (agents sys2) (fst (NewAgent env (proc boot))).
Definition agent2 : Agent := nth 1 (agents sys2) agent1.

(** The process once the first agent has been started. *)
Definition started : Proc := snd (Start env agent1 (proc sys2)).

End Sample.

(** A value of type [byte]. *)
Definition is_byte (b : Z) : Prop := 0 <= b < 256.

(** What a process that runs the operations of this file keeps true: the
    [start] calls made so far are none while the flag is unset, and the
    eight calls of one agent once it is set. *)
Definition started_once (p : Proc) : Prop :=
  if agentStarted p then exists a, startEvents (trace p) = startCalls a
  else startEvents (trace p) = [].

(** The [skipFrames] argument of the last call of a trace, when that call is
    [recordError]. *)
Definition lastSkipFrames (t : list Event) : option Z :=
  match last t (Stdout "") with
  | CallRecordError _ _ _ n => Some n
  | _ => None
  end.

(** The eight [start] calls of an agent as events. *)
Definition startCallEvents (a : Agent) : list Event :=
  map (fun cr => CallStart (fst cr) (snd cr)) (startCalls a).

(** The calls of the recording facade. *)
Definition isRecord (e : Event) : bool :=
  match e with
  | CallRecordSegment _ _ _ | CallRecordError _ _ _ _ => true
  | _ => false
  end.

(** The shape of the calls to collaborators in a process: none while the
    flag is unset; afterwards the eight [start] calls of one agent, then
    calls of the recording facade only. *)
Definition starts_then_records (p : Proc) : Prop :=
  if agentStarted p then
    exists a rest,
      calls (trace p) = startCallEvents a ++ rest /\
      forallb isRecord rest = true
  else calls (trace p) = [].

(** The fields no method and no owner assigns after construction: the
    creation time, the lock and the nine collaborators. *)
Definition wiring (a : Agent) : Z * list ref :=
  (runTs a,
   [ overheadLock a; apiRequest a; configLoader a; messageQueue a;
     processReporter a; cpuReporter a; allocationReporter a; blockReporter a;
     segmentReporter a; errorReporter a ]).

(** How often [uuid] is called on the [i]-th agent by a list of
    operations. *)
Fixpoint uuidCalls (i : nat) (ops : list Op) : nat :=
  match ops with
  | [] => O
  | OpUuid j :: ops' =>
      if (j =? i)%nat then S (uuidCalls i ops') else uuidCalls i ops'
  | _ :: ops' => uuidCalls i ops'
  end.

(** An operation that does not turn the debug flag on. *)
Definition keepsDebugOff (o : Op) : bool :=
  match o with
  | OpConfigure _ o => negb (optDebug o)
  | _ => true
  end.

(** A call of [Start]. *)
Definition isStart (o : Op) : bool :=
  match o with
  | OpStart _ => true
  | _ => false
  end.

(** Every agent has the debug flag off and nothing was written. *)
Definition quiet (s : System) : Prop :=
  Forall (fun a => Debug a = false) (agents s) /\
  printed (trace (proc s)) = [].

(** * Properties *)

(** ** Test vectors *)

Example sha1String_abc :
  sha1String "abc" = "a9993e364706816aba3e25717850c26c9cd0d89d".
Proof. vm_compute. reflexivity. Qed.

Example sha1String_empty :
  sha1String "" = "da39a3ee5e6b4b0d3255bfef95601890afd80709".
Proof. vm_compute. reflexivity. Qed.

Example sha1String_two_blocks :
  sha1String "abcdbcdecdefdefgefghfghighijhijkijkljklmklmnlmnomnopnopq"
  = "84983e441c3bd26ebaae4aa1f95129e5e54670f1".
Proof. vm_compute. reflexivity. Qed.

Example Sprintf_recovered :
  Sprintf "Recovered from panic in agent: %v" [Some (VInt 7)]
  = "Recovered from panic in agent: 7".
Proof. reflexivity. Qed.

(** ** Frame lemmas for the log sinks *)

Section Frames.

Variable E : Env.

Lemma agentStarted_emit e p : agentStarted (emit e p) = agentStarted p.
Proof. reflexivity. Qed.

Lemma trace_emit e p : trace (emit e p) = trace p ++ [e].
Proof. reflexivity. Qed.

Lemma agentStarted_log a f vs p :
  agentStarted (log E a f vs p) = agentStarted p.
Proof. unfold log. destruct (Debug a); reflexivity. Qed.

Lemma agentStarted_error a e p :
  agentStarted (error E a e p) = agentStarted p.
Proof. unfold error. destruct (Debug a); reflexivity. Qed.

Lemma trace_log a f vs p :
  exists l, trace (log E a f vs p) = trace p ++ l /\
            Forall (fun e => isCall e = false) l /\
            List.length l = if Debug a then 1%nat else 0%nat.
Proof.
  unfold log. destruct (Debug a); cbn [time_Now_Stamp trace emit advance].
  - eexists. split; [reflexivity|]. split; [|reflexivity].
    constructor; [reflexivity|constructor].
  - exists []. rewrite app_nil_r. repeat split. constructor.
Qed.

Lemma trace_error a e p :
  exists l, trace (error E a e p) = trace p ++ l /\
            Forall (fun e => isCall e = false) l.
Proof.
  unfold error. destruct (Debug a); cbn [time_Now_Stamp trace emit advance].
  - eexists. rewrite <- app_assoc. split; [reflexivity|].
    repeat constructor.
  - exists []. rewrite app_nil_r. split; [reflexivity|constructor].
Qed.

Lemma startEvents_app t u :
  startEvents (t ++ u) = startEvents t ++ startEvents u.
Proof.
  induction t as [|e t IH]; [reflexivity|].
  destruct e; cbn [app startEvents]; rewrite IH; reflexivity.
Qed.

Lemma startEvents_not_calls l :
  Forall (fun e => isCall e = false) l -> startEvents l = [].
Proof.
  induction 1 as [|e l He _ IH]; [reflexivity|].
  destruct e; try discriminate He. exact IH.
Qed.

Lemma calls_app t u : calls (t ++ u) = calls t ++ calls u.
Proof. apply filter_app. Qed.

Lemma calls_not_calls l :
  Forall (fun e => isCall e = false) l -> calls l = [].
Proof.
  induction 1 as [|e l He _ IH]; [reflexivity|].
  unfold calls in *. cbn [filter]. rewrite He. exact IH.
Qed.

(** [Start] always leaves the flag set. *)
Lemma agentStarted_Start a p : agentStarted (snd (Start E a p)) = true.
Proof.
  unfold Start. destruct (agentStarted p) eqn:Hs.
  - cbn [snd]. rewrite agentStarted_log. exact Hs.
  - destruct (HostName a =? "")%string; [destruct (os_Hostname E) as [h [e|]]|];
      cbn [snd]; rewrite agentStarted_log; repeat rewrite agentStarted_emit;
      try rewrite agentStarted_error; reflexivity.
Qed.

(** The trace of the [Start] that finds the flag unset: the error report
    of a failed host-name query (on standard output only), the eight
    [start] calls in source order, then the confirmation line. *)
Lemma trace_first_Start a p :
  agentStarted p = false ->
  exists pre post,
    trace (snd (Start E a p))
    = trace p ++ pre
        ++ map (fun cr => CallStart (fst cr) (snd cr))
               (startCalls (fst (Start E a p)))
        ++ post /\
    Forall (fun e => isCall e = false) pre /\
    Forall (fun e => isCall e = false) post.
Proof.
  intros Hs. unfold Start. rewrite Hs.
  destruct (HostName a =? "")%string.
  - destruct (os_Hostname E) as [h [e|]]; cbn [fst snd].
    + destruct (trace_error a e (set_agentStarted true p)) as (pre & Hpre & Fpre).
      match goal with |- context [log E ?a' ?f ?v ?q] =>
        destruct (trace_log a' f v q) as (post & Hpost & Fpost & _) end.
      exists pre, post. rewrite Hpost. cbn [trace emit]. rewrite Hpre.
      cbn [set_agentStarted trace]. split; [|split; assumption].
      repeat rewrite <- app_assoc. reflexivity.
    + match goal with |- context [log E ?a' ?f ?v ?q] =>
        destruct (trace_log a' f v q) as (post & Hpost & Fpost & _) end.
      exists [], post. rewrite Hpost. cbn [trace emit set_agentStarted].
      split; [|split; [constructor|assumption]].
      repeat rewrite <- app_assoc. reflexivity.
  - cbn [fst snd].
    match goal with |- context [log E ?a' ?f ?v ?q] =>
      destruct (trace_log a' f v q) as (post & Hpost & Fpost & _) end.
    exists [], post. rewrite Hpost. cbn [trace emit set_agentStarted].
    split; [|split; [constructor|assumption]].
    repeat rewrite <- app_assoc. reflexivity.
Qed.

End Frames.

(** ** Formatting *)

Lemma append_empty_r (s : string) : (s ++ "")%string = s.
Proof. induction s as [|c s IH]; cbn; [|rewrite IH]; reflexivity. Qed.

Lemma Sprintf_v (v : iface) : Sprintf "%v" [v] = formatV v.
Proof. cbn. apply append_empty_r. Qed.

Lemma string_forall_app f s t :
  string_forall f (s ++ t)%string = string_forall f s && string_forall f t.
Proof.
  induction s as [|c s IH]; [reflexivity|].
  cbn [String.append string_forall]. rewrite IH. apply andb_assoc.
Qed.

(** A format without verbs and without operands is printed as it is. *)
Lemma Sprintf_plain s :
  string_forall not_percent s = true -> Sprintf s [] = s.
Proof.
  induction s as [|c s IH]; [reflexivity|].
  cbn [string_forall]. intros H. apply andb_prop in H. destruct H as [Hc Hs].
  specialize (IH Hs).
  destruct c as [[] [] [] [] [] [] [] []];
    try discriminate Hc; cbn [Sprintf]; rewrite IH; reflexivity.
Qed.

(** ** The single-start guard *)

(** C1.  When the started flag is already set, [Start] is a no-op: the agent
    comes back with every field as it was (the host name included), no call
    to any collaborator is added to the trace, the flag stays set, and the
    trace grows by exactly one write to standard output, the warning, when
    the debug flag is on and by nothing when it is off.  With a time stamp
    free of percent signs the warning is the stamp in brackets, the version
    tag, the message and one newline. *)
Theorem Start_when_started_is_noop (E : Env) (a : Agent) (p : Proc) :
  agentStarted p = true ->
  fst (Start E a p) = a /\
  agentStarted (snd (Start E a p)) = true /\
  next_ref (snd (Start E a p)) = next_ref p /\
  calls (trace (snd (Start E a p))) = calls (trace p) /\
  startEvents (trace (snd (Start E a p))) = startEvents (trace p) /\
  (exists line,
     trace (snd (Start E a p))
     = trace p ++ (if Debug a then [Stdout line] else []) /\
     (string_forall not_percent (env_stamp E (tick p)) = true ->
      line = ("[" ++ env_stamp E (tick p)
                ++ "] StackImpact 1.2.2: Agent configuration failed. "
                ++ "Another agent has already been initialized." ++ nl)%string)).
Proof.
  intros Hs. unfold Start. rewrite Hs. cbn [fst snd].
  split; [reflexivity|]. split; [rewrite agentStarted_log; exact Hs|].
  split; [unfold log; destruct (Debug a); reflexivity|].
  split; [|split].
  - unfold log. destruct (Debug a); [|reflexivity].
    cbn [time_Now_Stamp emit advance trace]. rewrite calls_app. apply app_nil_r.
  - unfold log. destruct (Debug a); [|reflexivity].
    cbn [time_Now_Stamp emit advance trace]. rewrite startEvents_app.
    apply app_nil_r.
  - eexists. split.
    + unfold log. destruct (Debug a).
      * cbn [time_Now_Stamp emit advance trace]. reflexivity.
      * symmetry. apply app_nil_r.
    + intros Hst. rewrite Sprintf_plain; [reflexivity|].
      cbn [String.append string_forall]. rewrite string_forall_app, Hst.
      reflexivity.
Qed.

Lemma Start_when_started_is_noop_witness :
  agentStarted Sample.started = true /\
  fst (Start Sample.env Sample.agent2 Sample.started) = Sample.agent2.
Proof.
  split; [reflexivity|].
  apply (Start_when_started_is_noop Sample.env Sample.agent2 Sample.started).
  reflexivity.
Defined.

(** ** The recording facade *)

(** C2.  While the started flag is not set, [RecordSegment] and
    [RecordError] return with the agent and the whole process state, trace
    included, exactly as they were: nothing is delegated. *)
Theorem Record_before_Start_is_noop (a : Agent) (path : list string)
    (duration : Z) (group : string) (msg : iface) (skipFrames : Z) (p : Proc) :
  agentStarted p = false ->
  RecordSegment a path duration p = (a, p) /\
  RecordError a group msg skipFrames p = (a, p).
Proof.
  intros Hs. unfold RecordSegment, RecordError. rewrite Hs. split; reflexivity.
Qed.

Lemma Record_before_Start_is_noop_witness :
  RecordSegment Sample.agent1 ["db"; "query"] 120 (proc Sample.sys2)
  = (Sample.agent1, proc Sample.sys2) /\
  RecordError Sample.agent1 "db" (Some (VInt 42)) 0 (proc Sample.sys2)
  = (Sample.agent1, proc Sample.sys2).
Proof.
  apply (Record_before_Start_is_noop Sample.agent1 ["db"; "query"] 120 "db"
           (Some (VInt 42)) 0 (proc Sample.sys2)).
  reflexivity.
Defined.

(** C3.  Once the started flag is set, [RecordError] adds one call of
    [recordError] on the agent's error reporter, with the group string as
    given.  A payload that is an error is forwarded as that very error; any
    other payload, nil included, is forwarded as an error whose text is the
    [%v] rendering of the payload, so that the integer 42 arrives as an
    error with text "42". *)
Theorem RecordError_normalizes (a : Agent) (group : string) (msg : iface)
    (skipFrames : Z) (p : Proc) :
  agentStarted p = true ->
  (exists err n,
     RecordError a group msg skipFrames p
     = (a, emit (CallRecordError (errorReporter a) group err n) p) /\
     (forall e, msg = Some (VError e) -> err = e) /\
     ((forall e, msg <> Some (VError e)) -> Error err = formatV msg)) /\
  (exists n,
     RecordError a group (Some (VInt 42)) skipFrames p
     = (a, emit (CallRecordError (errorReporter a) group (ErrorString "42") n)
                p)).
Proof.
  intros Hs. unfold RecordError. rewrite Hs. cbn [negb]. split.
  - eexists. eexists. split; [reflexivity|]. split.
    + intros e ->. reflexivity.
    + intros Hne.
      destruct msg as [[n|s|b|e|t r]|];
        try (unfold normalize, Errorf, Error; apply Sprintf_v).
      exfalso. apply (Hne e). reflexivity.
  - eexists. reflexivity.
Qed.

Lemma RecordError_normalizes_witness :
  agentStarted Sample.started = true /\
  exists n,
    RecordError Sample.agent2 "db" (Some (VInt 42)) 0 Sample.started
    = (Sample.agent2,
       emit (CallRecordError (errorReporter Sample.agent2) "db"
                             (ErrorString "42") n) Sample.started).
Proof.
  split; [reflexivity|].
  apply (RecordError_normalizes Sample.agent2 "db" (Some (VInt 42)) 0
           Sample.started).
  reflexivity.
Defined.

(** C4, as stated, fails at the largest [int]: a caller that passes
    [math.MaxInt] after [Start] has the error reporter receive the smallest
    [int], not the caller's value plus one. *)
Lemma RecordError_skipFrames_overflow :
  agentStarted Sample.started = true /\
  lastSkipFrames
    (trace (snd (RecordError Sample.agent2 "db" (Some (VInt 42)) GoInt.MaxInt
                             Sample.started)))
  = Some GoInt.MinInt /\
  GoInt.MinInt <> GoInt.MaxInt + 1.
Proof.
  split; [reflexivity|]. split; [vm_compute; reflexivity|].
  vm_compute. discriminate.
Qed.

(** C4, amended.  Once the started flag is set, the [skipFrames] received by
    the error reporter is the caller's value plus one in [int] arithmetic:
    exactly the caller's value plus one for every [int] below the largest,
    and the smallest [int] at the largest. *)
Theorem RecordError_skipFrames (a : Agent) (group : string) (msg : iface)
    (skipFrames : Z) (p : Proc) :
  agentStarted p = true ->
  GoInt.MinInt <= skipFrames <= GoInt.MaxInt ->
  lastSkipFrames (trace (snd (RecordError a group msg skipFrames p)))
  = Some (if skipFrames =? GoInt.MaxInt then GoInt.MinInt else skipFrames + 1).
Proof.
  intros Hs Hr. unfold RecordError. rewrite Hs. cbn [negb snd trace emit].
  unfold lastSkipFrames. rewrite last_last. f_equal.
  unfold GoInt.wrapInt, GoInt.wrap, GoInt.MinInt, GoInt.MaxInt, GoInt.intSize in *.
  change (2 ^ (64 - 1)) with 9223372036854775808 in *.
  change (2 ^ 64) with 18446744073709551616.
  destruct (Z.eqb_spec skipFrames (9223372036854775808 - 1)) as [->|Hne].
  - reflexivity.
  - replace (skipFrames + 1 + 9223372036854775808)
      with (skipFrames + 9223372036854775809) by lia.
    rewrite Z.mod_small by lia. lia.
Qed.

Lemma RecordError_skipFrames_witness :
  lastSkipFrames
    (trace (snd (RecordError Sample.agent2 "db" (Some (VInt 42)) 0
                             Sample.started)))
  = Some 1.
Proof.
  apply (RecordError_skipFrames Sample.agent2 "db" (Some (VInt 42)) 0
           Sample.started).
  - reflexivity.
  - unfold GoInt.MinInt, GoInt.MaxInt. cbn. lia.
Defined.

(** ** Host-name resolution *)

(** C6.  On the [Start] that finds the flag unset, a host name that is not
    empty is kept; an empty one is replaced by what [os.Hostname] returned,
    whether or not it also returned an error.  In every case startup goes
    on: the flag is set and the eight collaborators are started. *)
Theorem Start_resolves_HostName (E : Env) (a : Agent) (p : Proc) :
  agentStarted p = false ->
  (HostName a <> "" -> HostName (fst (Start E a p)) = HostName a) /\
  (HostName a = "" -> HostName (fst (Start E a p)) = fst (env_hostname E)) /\
  agentStarted (snd (Start E a p)) = true /\
  startEvents (trace (snd (Start E a p)))
  = startEvents (trace p) ++ startCalls (fst (Start E a p)).
Proof.
  intros Hs. split; [|split; [|split]].
  - intros Hne. unfold Start. rewrite Hs.
    destruct (String.eqb_spec (HostName a) "") as [He|_]; [contradiction|].
    reflexivity.
  - intros He. unfold Start. rewrite Hs, He. cbn [String.eqb].
    unfold os_Hostname. destruct (env_hostname E) as [h [e|]]; reflexivity.
  - apply agentStarted_Start.
  - destruct (trace_first_Start E a p Hs) as (pre & post & Ht & Fpre & Fpost).
    rewrite Ht. repeat rewrite startEvents_app.
    rewrite (startEvents_not_calls pre Fpre).
    rewrite (startEvents_not_calls post Fpost).
    cbn [app]. rewrite app_nil_r. reflexivity.
Qed.

Lemma Start_resolves_HostName_witness :
  HostName
    (fst (Start Sample.env_nohost
                (configure (Sample.options "" true) Sample.agent1)
                (proc Sample.sys2)))
  = "" /\
  HostName
    (fst (Start Sample.env
                (configure (Sample.options "db-7" false) Sample.agent1)
                (proc Sample.sys2)))
  = "db-7".
Proof.
  split.
  - apply (Start_resolves_HostName Sample.env_nohost
             (configure (Sample.options "" true) Sample.agent1)
             (proc Sample.sys2)); reflexivity.
  - apply (proj1 (Start_resolves_HostName Sample.env
             (configure (Sample.options "db-7" false) Sample.agent1)
             (proc Sample.sys2) eq_refl)).
    discriminate.
Defined.

(** ** Startup order and the life of a process *)

Section Lifetime.

Variable E : Env.

Lemma startCalls_Start a p : startCalls (fst (Start E a p)) = startCalls a.
Proof.
  unfold Start. destruct (agentStarted p); [reflexivity|].
  destruct (HostName a =? "")%string; [|reflexivity].
  destruct (os_Hostname E) as [h e]. reflexivity.
Qed.

Lemma startEvents_first_Start a p :
  agentStarted p = false ->
  startEvents (trace (snd (Start E a p)))
  = startEvents (trace p) ++ startCalls a.
Proof.
  intros Hs.
  destruct (trace_first_Start E a p Hs) as (pre & post & Ht & Fpre & Fpost).
  rewrite Ht. repeat rewrite startEvents_app.
  rewrite (startEvents_not_calls pre Fpre).
  rewrite (startEvents_not_calls post Fpost).
  rewrite startCalls_Start. cbn [app]. rewrite app_nil_r. reflexivity.
Qed.

Lemma startEvents_refused_Start a p :
  agentStarted p = true ->
  startEvents (trace (snd (Start E a p))) = startEvents (trace p).
Proof.
  intros Hs. unfold Start. rewrite Hs. cbn [snd].
  destruct (trace_log E a
    ("Agent configuration failed. "
       ++ "Another agent has already been initialized.")%string [] p)
    as (l & Hl & Fl & _).
  rewrite Hl, startEvents_app, (startEvents_not_calls l Fl).
  apply app_nil_r.
Qed.

Lemma NoDup_startCalls a : NoDup (startCalls a).
Proof.
  unfold startCalls.
  repeat (constructor;
          [cbn [In]; intros H;
           repeat (destruct H as [H|H]; [discriminate H|]); exact H|]).
  constructor.
Qed.

Lemma started_once_Start a p :
  started_once p -> started_once (snd (Start E a p)).
Proof.
  unfold started_once. intros H.
  rewrite agentStarted_Start. destruct (agentStarted p) eqn:Hs.
  - rewrite (startEvents_refused_Start a p Hs). exact H.
  - exists a. rewrite (startEvents_first_Start a p Hs), H. reflexivity.
Qed.

Lemma started_once_same p q :
  agentStarted q = agentStarted p ->
  startEvents (trace q) = startEvents (trace p) ->
  started_once p -> started_once q.
Proof. unfold started_once. intros -> ->. exact (fun H => H). Qed.

Lemma started_once_log a f vs p :
  started_once p -> started_once (log E a f vs p).
Proof.
  apply started_once_same; [apply agentStarted_log|].
  destruct (trace_log E a f vs p) as (l & Hl & Fl & _).
  rewrite Hl, startEvents_app, (startEvents_not_calls l Fl).
  apply app_nil_r.
Qed.

Lemma started_once_error a e p :
  started_once p -> started_once (error E a e p).
Proof.
  apply started_once_same; [apply agentStarted_error|].
  destruct (trace_error E a e p) as (l & Hl & Fl).
  rewrite Hl, startEvents_app, (startEvents_not_calls l Fl).
  apply app_nil_r.
Qed.

Lemma started_once_RecordSegment a path d p :
  started_once p -> started_once (snd (RecordSegment a path d p)).
Proof.
  unfold RecordSegment. destruct (negb (agentStarted p)); [exact (fun H => H)|].
  apply started_once_same; [reflexivity|].
  cbn [snd trace emit]. rewrite startEvents_app. apply app_nil_r.
Qed.

Lemma started_once_RecordError a g m k p :
  started_once p -> started_once (snd (RecordError a g m k p)).
Proof.
  unfold RecordError. destruct (negb (agentStarted p)); [exact (fun H => H)|].
  apply started_once_same; [reflexivity|].
  cbn [snd trace emit]. rewrite startEvents_app. apply app_nil_r.
Qed.

Lemma proc_call i f s :
  proc (call i f s) = proc s \/
  exists a, nth_error (agents s) i = Some a /\
            proc (call i f s) = snd (f a (proc s)).
Proof.
  unfold call. destruct (nth_error (agents s) i) as [a|]; [|left; reflexivity].
  right. exists a. split; [reflexivity|].
  destruct (f a (proc s)). reflexivity.
Qed.

Lemma started_once_call i f s :
  (forall a p, started_once p -> started_once (snd (f a p))) ->
  started_once (proc s) -> started_once (proc (call i f s)).
Proof.
  intros Hf H. destruct (proc_call i f s) as [->|(a & _ & ->)];
    [exact H|apply Hf, H].
Qed.

Lemma started_once_exec o s :
  started_once (proc s) -> started_once (proc (exec E o s)).
Proof.
  destruct o; cbn [exec].
  - destruct s as [p l]. cbn [proc]. apply started_once_same; reflexivity.
  - apply started_once_call. intros a p H. exact H.
  - apply started_once_call. apply started_once_Start.
  - apply started_once_call. intros a p. apply started_once_RecordSegment.
  - apply started_once_call. intros a p. apply started_once_RecordError.
  - apply started_once_call. intros a p. apply started_once_log.
  - apply started_once_call. intros a p. apply started_once_error.
  - apply started_once_call. intros a p.
    apply started_once_same; reflexivity.
Qed.

Lemma started_once_run ops s :
  started_once (proc s) -> started_once (proc (run E ops s)).
Proof.
  revert s. induction ops as [|o ops IH]; intros s H; [exact H|].
  cbn [run fold_left]. apply IH, started_once_exec, H.
Qed.

Lemma started_once_NoDup p : started_once p -> NoDup (startEvents (trace p)).
Proof.
  unfold started_once. destruct (agentStarted p).
  - intros [a ->]. apply NoDup_startCalls.
  - intros ->. constructor.
Qed.

End Lifetime.

(** C7.  The [Start] that finds the flag unset makes the eight [start]
    calls, one per collaborator, each on the agent's own reference, in the
    order configuration loader, message queue, process, CPU, allocation,
    block, segment and error reporter.  In a process that ran any sequence of
    the operations of this file from its beginning, no [start] call on a
    collaborator occurs twice in the trace. *)
Theorem Start_starts_collaborators_once (E : Env) :
  (forall a p,
     agentStarted p = false ->
     startEvents (trace (snd (Start E a p)))
     = startEvents (trace p)
         ++ [ (ConfigLoader, configLoader a); (MessageQueue, messageQueue a);
              (ProcessReporter, processReporter a);
              (CPUReporter, cpuReporter a);
              (AllocationReporter, allocationReporter a);
              (BlockReporter, blockReporter a);
              (SegmentReporter, segmentReporter a);
              (ErrorReporter, errorReporter a) ]) /\
  (forall ops, NoDup (startEvents (trace (proc (run E ops boot))))).
Proof.
  split.
  - intros a p Hs. apply startEvents_first_Start, Hs.
  - intros ops. apply started_once_NoDup, started_once_run. reflexivity.
Qed.

Lemma Start_starts_collaborators_once_witness :
  startEvents (trace (snd (Start Sample.env Sample.agent1 (proc Sample.sys2))))
  = [ (ConfigLoader, Some 2%nat); (MessageQueue, Some 3%nat);
      (ProcessReporter, Some 4%nat); (CPUReporter, Some 5%nat);
      (AllocationReporter, Some 6%nat); (BlockReporter, Some 7%nat);
      (SegmentReporter, Some 8%nat); (ErrorReporter, Some 9%nat) ].
Proof.
  apply (proj1 (Start_starts_collaborators_once Sample.env) Sample.agent1
               (proc Sample.sys2)).
  reflexivity.
Defined.

(** ** The run identifier *)

Section RunId.

Variable E : Env.

Lemma nth_error_store_eq i a l x :
  nth_error l i = Some x -> nth_error (store i a l) i = Some a.
Proof.
  revert i. induction l as [|y l IH]; intros [|i] H; try discriminate H.
  - reflexivity.
  - cbn [store nth_error]. apply IH, H.
Qed.

Lemma nth_error_store_neq i j a l :
  i <> j -> nth_error (store j a l) i = nth_error l i.
Proof.
  revert i j. induction l as [|y l IH]; intros i j Hne.
  - destruct j; reflexivity.
  - destruct j as [|j], i as [|i]; cbn [store nth_error];
      try reflexivity; [contradiction|].
    apply IH. intros ->. apply Hne. reflexivity.
Qed.

Lemma runId_Start a p : runId (fst (Start E a p)) = runId a.
Proof.
  unfold Start. destruct (agentStarted p); [reflexivity|].
  destruct (HostName a =? "")%string; [|reflexivity].
  destruct (os_Hostname E) as [h e]. reflexivity.
Qed.

Lemma runId_uuid a p : runId (snd (fst (uuid E a p))) = runId a.
Proof. reflexivity. Qed.

Lemma runId_call i f s j a :
  (forall x p, runId (fst (f x p)) = runId x) ->
  nth_error (agents s) j = Some a ->
  exists a', nth_error (agents (call i f s)) j = Some a' /\
             runId a' = runId a.
Proof.
  intros Hf Hj. unfold call.
  destruct (nth_error (agents s) i) as [x|] eqn:Hi;
    [|exists a; split; [exact Hj|reflexivity]].
  specialize (Hf x (proc s)). destruct (f x (proc s)) as [x' p'].
  cbn [agents fst] in *. destruct (Nat.eq_dec j i) as [->|Hne].
  - exists x'. split; [apply (nth_error_store_eq _ _ _ x), Hi|].
    rewrite Hf. congruence.
  - exists a. split; [|reflexivity].
    rewrite nth_error_store_neq by exact Hne. exact Hj.
Qed.

Lemma runId_exec o s j a :
  nth_error (agents s) j = Some a ->
  exists a', nth_error (agents (exec E o s)) j = Some a' /\
             runId a' = runId a.
Proof.
  intros Hj. destruct o; cbn [exec]; try (apply runId_call; [|exact Hj]).
  - destruct (NewAgent E (proc s)) as [x p']. cbn [agents].
    exists a. split; [|reflexivity].
    rewrite nth_error_app1; [exact Hj|].
    apply nth_error_Some. congruence.
  - reflexivity.
  - intros x p. apply runId_Start.
  - intros x p. unfold RecordSegment.
    destruct (negb (agentStarted p)); reflexivity.
  - intros x p. unfold RecordError.
    destruct (negb (agentStarted p)); reflexivity.
  - reflexivity.
  - reflexivity.
  - reflexivity.
Qed.

Lemma runId_run ops s j a :
  nth_error (agents s) j = Some a ->
  exists a', nth_error (agents (run E ops s)) j = Some a' /\
             runId a' = runId a.
Proof.
  revert s a. induction ops as [|o ops IH]; intros s a Hj.
  - exists a. split; [exact Hj|reflexivity].
  - cbn [run fold_left].
    destruct (runId_exec o s j a Hj) as (a1 & H1 & R1).
    destruct (IH _ _ H1) as (a2 & H2 & R2).
    exists a2. split; [exact H2|congruence].
Qed.

End RunId.

(** C8.  [NewAgent] assigns the run identifier once, to the identifier that
    [uuid] makes from the second clock reading and the first random draw of
    the construction and the counter value 1.  Whatever sequence of
    operations follows (construction of other agents, assignment of the
    exported fields, [Start], [RecordSegment], [RecordError], [log], [error],
    [uuid]), every agent keeps the run identifier it had. *)
Theorem runId_is_immutable (E : Env) :
  (forall p,
     runId (fst (NewAgent E p))
     = sha1String
         (GoInt.FormatInt (GoInt.wrap64 (env_unix E (S (tick p))))
            ++ GoInt.Itoa (env_rand E (S (S (tick p))) mod 1000000000)
            ++ "1")%string) /\
  (forall ops s i a,
     nth_error (agents s) i = Some a ->
     exists a', nth_error (agents (run E ops s)) i = Some a' /\
                runId a' = runId a).
Proof.
  split.
  - intros p. reflexivity.
  - intros ops s i a. apply runId_run.
Qed.

Lemma runId_is_immutable_witness :
  exists a',
    nth_error
      (agents (run Sample.env
                   [OpConfigure 0 (Sample.options "" true); OpStart 0;
                    OpUuid 0; OpStart 1; OpRecordError 1 "db" None 0]
                   Sample.sys2)) 0
    = Some a' /\
    runId a' = runId Sample.agent1.
Proof.
  apply (proj2 (runId_is_immutable Sample.env)
               [OpConfigure 0 (Sample.options "" true); OpStart 0; OpUuid 0;
                OpStart 1; OpRecordError 1 "db" None 0]
               Sample.sys2 0%nat Sample.agent1).
  reflexivity.
Defined.

(** ** The gate of the recording facade *)

(** C10.  The flag that [RecordSegment] and [RecordError] test belongs to
    the process.  After any agent [a1] went through [Start], these two
    methods called on an agent [a2] add a call on [a2]'s own segment and
    error reporter, before as well as after [a2]'s own [Start], which is
    refused: it changes no field of [a2] and starts none of its
    collaborators. *)
Theorem Record_gate_is_process_wide (E : Env) (a1 a2 : Agent) (p : Proc)
    (path : list string) (duration : Z) (group : string) (msg : iface)
    (skipFrames : Z) :
  let p1 := snd (Start E a1 p) in
  let p2 := snd (Start E a2 p1) in
  fst (Start E a2 p1) = a2 /\
  startEvents (trace p2) = startEvents (trace p1) /\
  RecordSegment a2 path duration p1
  = (a2, emit (CallRecordSegment (segmentReporter a2) path duration) p1) /\
  RecordSegment a2 path duration p2
  = (a2, emit (CallRecordSegment (segmentReporter a2) path duration) p2) /\
  (exists err n,
     RecordError a2 group msg skipFrames p1
     = (a2, emit (CallRecordError (errorReporter a2) group err n) p1)) /\
  (exists err n,
     RecordError a2 group msg skipFrames p2
     = (a2, emit (CallRecordError (errorReporter a2) group err n) p2)).
Proof.
  intros p1 p2.
  assert (H1 : agentStarted p1 = true) by apply agentStarted_Start.
  assert (H2 : agentStarted p2 = true) by apply agentStarted_Start.
  unfold RecordSegment, RecordError. rewrite H1, H2. cbn [negb].
  repeat split.
  - unfold Start. rewrite H1. reflexivity.
  - apply startEvents_refused_Start, H1.
  - eexists. eexists. reflexivity.
  - eexists. eexists. reflexivity.
Qed.

(** ** The recovery wrapper *)

(** C9.  A guarded operation always returns to its caller.  When its body
    panics, the panic stops in [recoverAndLog], the agent and the process
    are as the body left them, and the trace grows by one line on standard
    output, which shows the value of the panic, when the debug flag is on and
    by nothing when it is off.  When the body returns, the wrapper adds
    nothing. *)
Theorem recoverAndLog_suppresses_panics (E : Env) (body : Body) (a : Agent)
    (p : Proc) (c : Completion) (a' : Agent) (p' : Proc) :
  body a p = (c, a', p') ->
  fst (fst (guarded E body a p)) = Returns /\
  snd (fst (guarded E body a p)) = a' /\
  agentStarted (snd (guarded E body a p)) = agentStarted p' /\
  calls (trace (snd (guarded E body a p))) = calls (trace p') /\
  trace (snd (guarded E body a p))
  = trace p' ++
      match c with
      | Returns => []
      | Panics v =>
          if Debug a' then
            [Stdout (Sprintf ("[" ++ env_stamp E (tick p') ++ "]"
                       ++ " StackImpact 1.2.2: "
                       ++ "Recovered from panic in agent: %v" ++ nl)%string
                       [Some v])]
          else []
      end.
Proof.
  intros Hb. unfold guarded. rewrite Hb. unfold recoverAndLog, recover.
  destruct c as [|v]; cbn [fst snd].
  - rewrite app_nil_r. repeat split; reflexivity.
  - unfold log. destruct (Debug a');
      cbn [time_Now_Stamp emit advance agentStarted trace].
    + repeat split. rewrite calls_app. cbn. apply app_nil_r.
    + rewrite app_nil_r. repeat split; reflexivity.
Qed.

Lemma recoverAndLog_suppresses_panics_witness :
  fst (fst (guarded Sample.env
              (fun a p => (Panics (VString "boom"), a, p))
              (configure (Sample.options "" true) Sample.agent2)
              Sample.started))
  = Returns.
Proof.
  apply (recoverAndLog_suppresses_panics Sample.env
           (fun a p => (Panics (VString "boom"), a, p))
           (configure (Sample.options "" true) Sample.agent2) Sample.started
           (Panics (VString "boom"))
           (configure (Sample.options "" true) Sample.agent2) Sample.started).
  reflexivity.
Defined.

(** ** The identifier generator *)

Section Identifiers.

Lemma land_255_is_byte x : is_byte (Z.land x 255).
Proof.
  unfold is_byte. change 255 with (Z.ones 8).
  rewrite Z.land_ones by lia. apply Z.mod_pos_bound. reflexivity.
Qed.

Lemma bytes_of_word_are_bytes w : Forall is_byte (Sha1.bytes_of_word w).
Proof. unfold Sha1.bytes_of_word. repeat constructor; apply land_255_is_byte. Qed.

Lemma sum_length msg : List.length (Sha1.sum msg) = 20%nat.
Proof. reflexivity. Qed.

Lemma sum_bytes msg : Forall is_byte (Sha1.sum msg).
Proof.
  unfold Sha1.sum. repeat (apply Forall_app; split);
    apply bytes_of_word_are_bytes.
Qed.

Lemma digit_is_lower_hex n :
  0 <= n < 16 -> Hex.is_lower_hex (Hex.digit n) = true.
Proof.
  intros H.
  assert (Hn : exists k, (k < 16)%nat /\ n = Z.of_nat k).
  { exists (Z.to_nat n). split; lia. }
  destruct Hn as (k & Hk & ->). unfold Hex.digit. rewrite Nat2Z.id.
  do 16 (destruct k as [|k]; [reflexivity|]). lia.
Qed.

Lemma high_nibble b : is_byte b -> 0 <= Z.shiftr b 4 < 16.
Proof.
  unfold is_byte. intros H. rewrite Z.shiftr_div_pow2 by lia.
  change (2 ^ 4) with 16. split.
  - apply Z.div_pos; lia.
  - apply Z.div_lt_upper_bound; lia.
Qed.

Lemma low_nibble b : 0 <= Z.land b 15 < 16.
Proof.
  change 15 with (Z.ones 4). rewrite Z.land_ones by lia.
  apply Z.mod_pos_bound. reflexivity.
Qed.

Lemma EncodeToString_length bs :
  String.length (Hex.EncodeToString bs) = (2 * List.length bs)%nat.
Proof.
  induction bs as [|b bs IH]; [reflexivity|].
  cbn [Hex.EncodeToString String.length List.length]. rewrite IH. lia.
Qed.

Lemma EncodeToString_lower_hex bs :
  Forall is_byte bs ->
  string_forall Hex.is_lower_hex (Hex.EncodeToString bs) = true.
Proof.
  induction 1 as [|b bs Hb _ IH]; [reflexivity|].
  cbn [Hex.EncodeToString string_forall].
  rewrite (digit_is_lower_hex _ (high_nibble b Hb)).
  rewrite (digit_is_lower_hex _ (low_nibble b)).
  exact IH.
Qed.

Lemma sha1String_hex40 s : hex40 (sha1String s).
Proof.
  unfold hex40, sha1String. split.
  - rewrite EncodeToString_length, sum_length. reflexivity.
  - apply EncodeToString_lower_hex, sum_bytes.
Qed.

End Identifiers.

(** C5, as stated, fails: the generator can return the same string twice.
    The three numbers are concatenated without a separator, so within one
    second the random draw 31 with counter 2 and the random draw 3 with
    counter 12 are digested from the same text.  Here an agent fresh from
    [NewAgent] generates eleven identifiers, and the first equals the
    eleventh. *)
Lemma uuid_collision :
  let ids := fst (fst (uuids Sample.env 11 Sample.agent1 (proc Sample.sys1))) in
  List.length ids = 11%nat /\
  nth 0 ids "" = nth 10 ids "" /\
  ~ NoDup ids.
Proof.
  cbv zeta.
  assert (Hlen : List.length
            (fst (fst (uuids Sample.env 11 Sample.agent1 (proc Sample.sys1))))
          = 11%nat) by (vm_compute; reflexivity).
  assert (Heq : nth 0 (fst (fst (uuids Sample.env 11 Sample.agent1
                                       (proc Sample.sys1)))) ""
                = nth 10 (fst (fst (uuids Sample.env 11 Sample.agent1
                                          (proc Sample.sys1)))) "")
    by (vm_compute; reflexivity).
  split; [exact Hlen|]. split; [exact Heq|].
  intros Hnd.
  assert (H : 0%nat = 10%nat).
  { apply (proj1 (NoDup_nth _ "") Hnd); [rewrite Hlen; lia ..|exact Heq]. }
  discriminate H.
Qed.

(** C5, amended.  N sequential calls of the generator return N strings, each
    of exactly forty characters, all of them lowercase hexadecimal digits.
    (That the N strings differ from one another is not part of what the
    generator ensures.) *)
Theorem uuids_are_hex40 (E : Env) (n : nat) (a : Agent) (p : Proc) :
  List.length (fst (fst (uuids E n a p))) = n /\
  Forall hex40 (fst (fst (uuids E n a p))).
Proof.
  revert a p. induction n as [|n IH]; intros a p.
  - split; [reflexivity|constructor].
  - cbn [uuids].
    destruct (uuid E a p) as [[id a1] p1] eqn:Hu.
    assert (Hid : hex40 id).
    { unfold uuid in Hu. cbn [time_Now_Unix rand_Intn] in Hu.
      injection Hu as <- _ _. apply sha1String_hex40. }
    destruct (IH a1 p1) as [Hl Hf].
    destruct (uuids E n a1 p1) as [[ids a2] p2].
    cbn [fst snd] in *. split.
    + cbn [List.length]. rewrite Hl. reflexivity.
    + constructor; assumption.
Qed.

(** * Further properties of agent.go *)

(** ** Shared lemmas on the agents of a process *)

Lemma call_cases i f s :
  call i f s = s \/
  exists a, nth_error (agents s) i = Some a /\
            call i f s
            = mkSystem (snd (f a (proc s)))
                       (store i (fst (f a (proc s))) (agents s)).
Proof.
  unfold call. destruct (nth_error (agents s) i) as [a|]; [|left; reflexivity].
  right. exists a. split; [reflexivity|].
  destruct (f a (proc s)). reflexivity.
Qed.

Lemma nth_error_call i f s j a :
  nth_error (agents s) j = Some a ->
  nth_error (agents (call i f s)) j
  = Some (if (j =? i)%nat then fst (f a (proc s)) else a).
Proof.
  intros Hj. unfold call.
  destruct (nth_error (agents s) i) as [x|] eqn:Hi.
  - destruct (f x (proc s)) as [x' p'] eqn:Hf. cbn [agents].
    destruct (Nat.eqb_spec j i) as [->|Hne].
    + rewrite Hi in Hj. injection Hj as <-. rewrite Hf.
      apply (nth_error_store_eq _ _ _ x), Hi.
    + rewrite nth_error_store_neq by exact Hne. exact Hj.
  - destruct (Nat.eqb_spec j i) as [->|Hne]; [congruence|exact Hj].
Qed.

(** Two process states with the same four components are the same. *)
Lemma Proc_ext (p q : Proc) :
  agentStarted p = agentStarted q ->
  tick p = tick q ->
  next_ref p = next_ref q ->
  trace p = trace q ->
  p = q.
Proof. destruct p, q. cbn. intros -> -> -> ->. reflexivity. Qed.

(** ** What [Start] changes *)

(** X1.  Whatever the process state, [Start] returns the agent with every
    field but [HostName] as it was: the counter, the run identifier, the
    collaborators and the other options are never assigned. *)
Theorem Start_changes_only_HostName (E : Env) (a : Agent) (p : Proc) :
  fst (Start E a p) = set_HostName (HostName (fst (Start E a p))) a.
Proof.
  unfold Start. destruct (agentStarted p).
  - destruct a; reflexivity.
  - destruct (HostName a =? "")%string.
    + destruct (os_Hostname E) as [h e]. destruct a; reflexivity.
    + destruct a; reflexivity.
Qed.

(** X2.  With the debug flag off, the [Start] that finds the flag unset
    sets it, adds the eight [start] calls and does nothing else: it writes
    nothing and reads no clock, also when the host-name query fails. *)
Theorem first_Start_debug_off (E : Env) (a : Agent) (p : Proc) :
  agentStarted p = false ->
  Debug a = false ->
  snd (Start E a p)
  = mkProc true (tick p) (next_ref p) (trace p ++ startCallEvents a).
Proof.
  intros Hs Hd.
  assert (Hp : snd (Start E a p)
               = emit (CallStart ErrorReporter (errorReporter a))
                  (emit (CallStart SegmentReporter (segmentReporter a))
                   (emit (CallStart BlockReporter (blockReporter a))
                    (emit (CallStart AllocationReporter (allocationReporter a))
                     (emit (CallStart CPUReporter (cpuReporter a))
                      (emit (CallStart ProcessReporter (processReporter a))
                       (emit (CallStart MessageQueue (messageQueue a))
                        (emit (CallStart ConfigLoader (configLoader a))
                              (set_agentStarted true p))))))))).
  { unfold Start. rewrite Hs.
    destruct (HostName a =? "")%string.
    - destruct (os_Hostname E) as [h [e|]]; cbn [snd];
        unfold log, error; cbn [Debug set_HostName]; rewrite Hd; reflexivity.
    - cbn [snd]. unfold log. rewrite Hd. reflexivity. }
  rewrite Hp. apply Proc_ext; cbn [agentStarted tick next_ref trace emit
                                     set_agentStarted]; try reflexivity.
  repeat rewrite <- app_assoc. reflexivity.
Qed.

Lemma first_Start_debug_off_witness :
  snd (Start Sample.env_nohost Sample.agent1 (proc Sample.sys2))
  = mkProc true (tick (proc Sample.sys2)) (next_ref (proc Sample.sys2))
           (trace (proc Sample.sys2) ++ startCallEvents Sample.agent1).
Proof.
  apply (first_Start_debug_off Sample.env_nohost Sample.agent1
           (proc Sample.sys2)); reflexivity.
Defined.

(** X3.  With the debug flag on, an empty host name and a failing
    [os.Hostname], the [Start] that finds the flag unset first writes the
    error banner and the text of the error, then takes the returned name as
    host name, makes the eight [start] calls and writes one more line. *)
Theorem first_Start_reports_Hostname_error (E : Env) (a : Agent) (p : Proc)
    (h : string) (e : GoError) :
  agentStarted p = false ->
  Debug a = true ->
  HostName a = "" ->
  env_hostname E = (h, Some e) ->
  HostName (fst (Start E a p)) = h /\
  exists line,
    trace (snd (Start E a p))
    = trace p
        ++ [ Stdout (("[" ++ env_stamp E (tick p)
                        ++ "] StackImpact 1.2.2: Error") ++ nl)%string;
             Stdout (Error e ++ nl)%string ]
        ++ startCallEvents a
        ++ [Stdout line].
Proof.
  intros Hs Hd Hh He. unfold Start, os_Hostname. rewrite Hs, Hh, He.
  cbn [String.eqb fst snd]. split; [reflexivity|].
  unfold log, error. cbn [Debug set_HostName]. rewrite Hd.
  cbn [time_Now_Stamp trace emit advance tick set_agentStarted].
  eexists. repeat rewrite <- app_assoc. reflexivity.
Qed.

Lemma first_Start_reports_Hostname_error_witness :
  HostName
    (fst (Start Sample.env_nohost
                (configure (Sample.options "" true) Sample.agent1)
                (proc Sample.sys2)))
  = "".
Proof.
  apply (first_Start_reports_Hostname_error Sample.env_nohost
           (configure (Sample.options "" true) Sample.agent1)
           (proc Sample.sys2) "" (ErrorString "hostname: not available"));
    reflexivity.
Defined.

(** ** The started flag over the life of a process *)

Section Flag.

Variable E : Env.

Lemma agentStarted_exec_true o s :
  agentStarted (proc s) = true -> agentStarted (proc (exec E o s)) = true.
Proof.
  intros H. destruct o; cbn [exec];
    try (match goal with |- context [call ?i ?f s] =>
           destruct (proc_call i f s) as [->|(x & _ & ->)]; [exact H|] end).
  - destruct s as [p l]. exact H.
  - exact H.
  - apply agentStarted_Start.
  - unfold RecordSegment. destruct (negb (agentStarted (proc s))); exact H.
  - unfold RecordError. destruct (negb (agentStarted (proc s))); exact H.
  - cbn [snd]. rewrite agentStarted_log. exact H.
  - cbn [snd]. rewrite agentStarted_error. exact H.
  - exact H.
Qed.

Lemma agentStarted_exec_not_Start o s :
  isStart o = false ->
  agentStarted (proc (exec E o s)) = agentStarted (proc s).
Proof.
  intros Ho. destruct o; try discriminate Ho; cbn [exec];
    try (match goal with |- context [call ?i ?f s] =>
           destruct (proc_call i f s) as [->|(x & _ & ->)]; [reflexivity|] end).
  - destruct s as [p l]. reflexivity.
  - reflexivity.
  - unfold RecordSegment. destruct (negb (agentStarted (proc s))); reflexivity.
  - unfold RecordError. destruct (negb (agentStarted (proc s))); reflexivity.
  - cbn [snd]. apply agentStarted_log.
  - cbn [snd]. apply agentStarted_error.
  - reflexivity.
Qed.

End Flag.

(** X4.  Nothing in the file resets the started flag, and nothing but
    [Start] sets it: once set it stays set through every sequence of
    operations, and a sequence without a [Start] leaves it as it was. *)
Theorem agentStarted_is_only_set_by_Start (E : Env) (ops : list Op)
    (s : System) :
  (agentStarted (proc s) = true ->
   agentStarted (proc (run E ops s)) = true) /\
  (forallb (fun o => negb (isStart o)) ops = true ->
   agentStarted (proc (run E ops s)) = agentStarted (proc s)).
Proof.
  split.
  - revert s. induction ops as [|o ops IH]; intros s H; [exact H|].
    cbn [run fold_left]. apply IH, agentStarted_exec_true, H.
  - revert s. induction ops as [|o ops IH]; intros s H; [reflexivity|].
    cbn [forallb] in H. apply andb_prop in H. destruct H as [Ho H].
    change (run E (o :: ops) s) with (run E ops (exec E o s)).
    rewrite (IH _ H). apply agentStarted_exec_not_Start.
    destruct (isStart o); [discriminate Ho|reflexivity].
Qed.

Lemma agentStarted_is_only_set_by_Start_witness :
  agentStarted
    (proc (run Sample.env
               [OpNewAgent; OpRecordSegment 0 ["db"] 5; OpUuid 1;
                OpLog 0 "x" []]
               Sample.sys2))
  = false /\
  agentStarted
    (proc (run Sample.env [OpRecordError 1 "db" None 0; OpNewAgent]
               (mkSystem Sample.started (agents Sample.sys2))))
  = true.
Proof.
  split.
  - apply (proj2 (agentStarted_is_only_set_by_Start Sample.env
             [OpNewAgent; OpRecordSegment 0 ["db"] 5; OpUuid 1; OpLog 0 "x" []]
             Sample.sys2)).
    reflexivity.
  - apply (proj1 (agentStarted_is_only_set_by_Start Sample.env
             [OpRecordError 1 "db" None 0; OpNewAgent]
             (mkSystem Sample.started (agents Sample.sys2)))).
    reflexivity.
Defined.

(** ** The calls to collaborators over the life of a process *)

Section CallShape.

Variable E : Env.

Lemma calls_startCallEvents a : calls (startCallEvents a) = startCallEvents a.
Proof. reflexivity. Qed.

Lemma calls_first_Start a p :
  agentStarted p = false ->
  calls (trace (snd (Start E a p))) = calls (trace p) ++ startCallEvents a.
Proof.
  intros Hs.
  destruct (trace_first_Start E a p Hs) as (pre & post & Ht & Fpre & Fpost).
  rewrite Ht. repeat rewrite calls_app.
  rewrite (calls_not_calls pre Fpre), (calls_not_calls post Fpost).
  rewrite startCalls_Start. fold (startCallEvents a).
  rewrite calls_startCallEvents. cbn [app]. rewrite app_nil_r. reflexivity.
Qed.

Lemma calls_refused_Start a p :
  agentStarted p = true ->
  calls (trace (snd (Start E a p))) = calls (trace p).
Proof.
  intros Hs. unfold Start. rewrite Hs. cbn [snd].
  match goal with |- context [log E a ?f ?v p] =>
    destruct (trace_log E a f v p) as (l & Hl & Fl & _) end.
  rewrite Hl, calls_app, (calls_not_calls l Fl). apply app_nil_r.
Qed.

Lemma shape_same p q :
  agentStarted q = agentStarted p ->
  calls (trace q) = calls (trace p) ->
  starts_then_records p -> starts_then_records q.
Proof. unfold starts_then_records. intros -> ->. exact (fun H => H). Qed.

Lemma shape_record e p :
  isRecord e = true ->
  agentStarted p = true ->
  starts_then_records p -> starts_then_records (emit e p).
Proof.
  unfold starts_then_records. intros He Hs. cbn [emit agentStarted trace].
  rewrite Hs. intros (a & rest & Hc & Hr).
  exists a, (rest ++ [e]). split.
  - rewrite calls_app, Hc, <- app_assoc. f_equal. f_equal.
    destruct e; try discriminate He; reflexivity.
  - rewrite forallb_app, Hr. cbn. rewrite He. reflexivity.
Qed.

Lemma shape_Start a p :
  starts_then_records p -> starts_then_records (snd (Start E a p)).
Proof.
  unfold starts_then_records. rewrite agentStarted_Start.
  destruct (agentStarted p) eqn:Hs.
  - rewrite (calls_refused_Start a p Hs). exact (fun H => H).
  - intros H. exists a, []. rewrite (calls_first_Start a p Hs), H.
    split; reflexivity.
Qed.

Lemma shape_log a f vs p :
  starts_then_records p -> starts_then_records (log E a f vs p).
Proof.
  apply shape_same; [apply agentStarted_log|].
  destruct (trace_log E a f vs p) as (l & Hl & Fl & _).
  rewrite Hl, calls_app, (calls_not_calls l Fl). apply app_nil_r.
Qed.

Lemma shape_error a e p :
  starts_then_records p -> starts_then_records (error E a e p).
Proof.
  apply shape_same; [apply agentStarted_error|].
  destruct (trace_error E a e p) as (l & Hl & Fl).
  rewrite Hl, calls_app, (calls_not_calls l Fl). apply app_nil_r.
Qed.

Lemma shape_exec o s :
  starts_then_records (proc s) -> starts_then_records (proc (exec E o s)).
Proof.
  intros H. destruct o; cbn [exec];
    try (match goal with |- context [call ?i ?f s] =>
           destruct (proc_call i f s) as [->|(x & _ & ->)]; [exact H|] end).
  - destruct s as [p l]. revert H. apply shape_same; reflexivity.
  - exact H.
  - apply shape_Start, H.
  - unfold RecordSegment. destruct (agentStarted (proc s)) eqn:Hs;
      cbn [negb snd]; [|exact H].
    apply shape_record; [reflexivity|exact Hs|exact H].
  - unfold RecordError. destruct (agentStarted (proc s)) eqn:Hs;
      cbn [negb snd]; [|exact H].
    apply shape_record; [reflexivity|exact Hs|exact H].
  - cbn [snd]. apply shape_log, H.
  - cbn [snd]. apply shape_error, H.
  - revert H. apply shape_same; reflexivity.
Qed.

Lemma shape_run ops s :
  starts_then_records (proc s) -> starts_then_records (proc (run E ops s)).
Proof.
  revert s. induction ops as [|o ops IH]; intros s H; [exact H|].
  cbn [run fold_left]. apply IH, shape_exec, H.
Qed.

End CallShape.

(** X5.  As long as the started flag of a process is unset, no collaborator
    has received any call, whatever was done with whichever agents:
    construction, configuration, recording, logging and identifier
    generation delegate nothing. *)
Theorem no_call_before_Start (E : Env) (ops : list Op) :
  agentStarted (proc (run E ops boot)) = false ->
  calls (trace (proc (run E ops boot))) = [].
Proof.
  intros Hs.
  assert (H : starts_then_records (proc (run E ops boot))).
  { apply shape_run. reflexivity. }
  unfold starts_then_records in H. rewrite Hs in H. exact H.
Qed.

Lemma no_call_before_Start_witness :
  calls
    (trace
       (proc (run Sample.env
                  [OpNewAgent; OpConfigure 0 (Sample.options "" true);
                   OpRecordSegment 0 ["db"; "query"] 120;
                   OpRecordError 0 "db" (Some (VInt 42)) 0; OpUuid 0;
                   OpLog 0 "x" []]
                  boot)))
  = [].
Proof.
  apply (no_call_before_Start Sample.env
           [OpNewAgent; OpConfigure 0 (Sample.options "" true);
            OpRecordSegment 0 ["db"; "query"] 120;
            OpRecordError 0 "db" (Some (VInt 42)) 0; OpUuid 0;
            OpLog 0 "x" []]).
  reflexivity.
Defined.

(** X6.  Once the started flag of a process is set, the calls received by
    collaborators are the eight [start] calls of one agent, in source order,
    followed by calls of [recordSegment] and [recordError] only: every
    delegated record comes after the startup calls, and no [start] comes
    later. *)
Theorem starts_precede_records (E : Env) (ops : list Op) :
  agentStarted (proc (run E ops boot)) = true ->
  exists a rest,
    calls (trace (proc (run E ops boot))) = startCallEvents a ++ rest /\
    forallb isRecord rest = true.
Proof.
  intros Hs.
  assert (H : starts_then_records (proc (run E ops boot))).
  { apply shape_run. reflexivity. }
  unfold starts_then_records in H. rewrite Hs in H. exact H.
Qed.

Lemma starts_precede_records_witness :
  exists a rest,
    calls
      (trace
         (proc (run Sample.env
                    [OpNewAgent; OpNewAgent; OpRecordSegment 1 ["early"] 1;
                     OpStart 0; OpStart 1; OpRecordSegment 1 ["db"] 120;
                     OpRecordError 0 "db" None 0]
                    boot)))
    = startCallEvents a ++ rest /\
    forallb isRecord rest = true.
Proof.
  apply (starts_precede_records Sample.env
           [OpNewAgent; OpNewAgent; OpRecordSegment 1 ["early"] 1;
            OpStart 0; OpStart 1; OpRecordSegment 1 ["db"] 120;
            OpRecordError 0 "db" None 0]).
  reflexivity.
Defined.

(** ** Standard output *)

Section Quiet.

Variable E : Env.

Lemma Forall_store (P : Agent -> Prop) i a l :
  Forall P l -> P a -> Forall P (store i a l).
Proof.
  intros Hl Ha. revert i. induction Hl as [|x l Hx Hl IH]; intros i.
  - destruct i; constructor.
  - destruct i as [|i]; cbn [store]; constructor; auto.
Qed.

Lemma printed_app t u : printed (t ++ u) = printed t ++ printed u.
Proof. apply filter_app. Qed.

Lemma printed_Start_debug_off a p :
  Debug a = false ->
  printed (trace (snd (Start E a p))) = printed (trace p).
Proof.
  intros Hd. unfold Start. destruct (agentStarted p).
  - unfold log. rewrite Hd. reflexivity.
  - destruct (HostName a =? "")%string;
      [destruct (os_Hostname E) as [h [e|]]|];
      cbn [snd]; unfold log, error; cbn [Debug set_HostName]; rewrite Hd;
      cbn [trace emit set_agentStarted];
      repeat rewrite printed_app; cbn [printed filter isStdout isCall negb];
      repeat rewrite app_nil_r; reflexivity.
Qed.

Lemma Debug_Start a p : Debug (fst (Start E a p)) = Debug a.
Proof.
  unfold Start. destruct (agentStarted p); [reflexivity|].
  destruct (HostName a =? "")%string; [|reflexivity].
  destruct (os_Hostname E) as [h e]. reflexivity.
Qed.

Lemma quiet_call i f s :
  (forall a p, Debug a = false ->
               Debug (fst (f a p)) = false /\
               printed (trace (snd (f a p))) = printed (trace p)) ->
  quiet s -> quiet (call i f s).
Proof.
  intros Hf [Ha Hp]. destruct (call_cases i f s) as [->|(x & Hx & ->)];
    [split; assumption|].
  assert (Hd : Debug x = false).
  { apply nth_error_In in Hx. rewrite Forall_forall in Ha. apply Ha, Hx. }
  destruct (Hf x (proc s) Hd) as [Hd' Hp'].
  split; cbn [agents proc].
  - apply Forall_store; assumption.
  - rewrite Hp'. exact Hp.
Qed.

Lemma quiet_exec o s :
  keepsDebugOff o = true -> quiet s -> quiet (exec E o s).
Proof.
  intros Ho Hq. destruct o; cbn [exec]; try (apply quiet_call; [|exact Hq]).
  - destruct Hq as [Ha Hp]. destruct s as [p l]. cbn [proc agents] in *.
    split; cbn [agents proc].
    + apply Forall_app. split; [exact Ha|]. constructor; [reflexivity|constructor].
    + exact Hp.
  - intros a p _. cbn [keepsDebugOff] in Ho.
    split; [|reflexivity]. cbn. destruct (optDebug o); [discriminate Ho|reflexivity].
  - intros a p Hd. split; [rewrite Debug_Start; exact Hd|].
    apply printed_Start_debug_off, Hd.
  - intros a p Hd. unfold RecordSegment.
    destruct (negb (agentStarted p)); split; try assumption; try reflexivity.
    cbn [snd emit trace]. rewrite printed_app. apply app_nil_r.
  - intros a p Hd. unfold RecordError.
    destruct (negb (agentStarted p)); split; try assumption; try reflexivity.
    cbn [snd emit trace]. rewrite printed_app. apply app_nil_r.
  - intros a p Hd. split; [exact Hd|]. unfold log. rewrite Hd. reflexivity.
  - intros a p Hd. split; [exact Hd|]. unfold error. rewrite Hd. reflexivity.
  - intros a p Hd. split; [exact Hd|reflexivity].
Qed.

End Quiet.

(** X7.  The agent writes to standard output only for an owner that turned
    the debug flag on.  In a process where no assignment of the exported
    fields sets [Debug], nothing is ever written, whatever else is done:
    construction, [Start] (first or refused, with or without a host-name
    error), recording, [log], [error] and [uuid]. *)
Theorem silent_unless_Debug (E : Env) (ops : list Op) :
  forallb keepsDebugOff ops = true ->
  printed (trace (proc (run E ops boot))) = [].
Proof.
  intros Hops.
  assert (H : forall s, quiet s -> quiet (run E ops s)).
  { induction ops as [|o ops IH]; intros s Hq; [exact Hq|].
    cbn [forallb] in Hops. apply andb_prop in Hops. destruct Hops as [Ho Hops].
    cbn [run fold_left]. apply (IH Hops), quiet_exec; assumption. }
  apply (H boot). split; [constructor|reflexivity].
Qed.

Lemma silent_unless_Debug_witness :
  printed
    (trace
       (proc (run Sample.env_nohost
                  [OpNewAgent; OpNewAgent;
                   OpConfigure 0 (Sample.options "" false); OpStart 0;
                   OpStart 1; OpLog 1 "x" [];
                   OpError 0 (ErrorString "e")]
                  boot)))
  = [].
Proof.
  apply (silent_unless_Debug Sample.env_nohost
           [OpNewAgent; OpNewAgent; OpConfigure 0 (Sample.options "" false);
            OpStart 0; OpStart 1; OpLog 1 "x" [];
            OpError 0 (ErrorString "e")]).
  reflexivity.
Defined.

(** ** Fields that stay as constructed *)

Section Fields.

Variable E : Env.

Lemma Start_agent_cases a p :
  fst (Start E a p) = a \/ exists h, fst (Start E a p) = set_HostName h a.
Proof.
  unfold Start. destruct (agentStarted p); [left; reflexivity|].
  destruct (HostName a =? "")%string; [|left; reflexivity].
  destruct (os_Hostname E) as [h e]. right. exists h. reflexivity.
Qed.

Lemma wiring_Start a p : wiring (fst (Start E a p)) = wiring a.
Proof.
  destruct (Start_agent_cases a p) as [->|[h ->]]; reflexivity.
Qed.

Lemma nextId_Start a p : nextId (fst (Start E a p)) = nextId a.
Proof.
  destruct (Start_agent_cases a p) as [->|[h ->]]; reflexivity.
Qed.

Lemma wiring_exec o s j a :
  nth_error (agents s) j = Some a ->
  exists a', nth_error (agents (exec E o s)) j = Some a' /\
             wiring a' = wiring a.
Proof.
  intros Hj. destruct o; cbn [exec];
    try (rewrite (nth_error_call _ _ _ _ _ Hj); eexists; split; [reflexivity|];
         destruct (j =? i)%nat; [|reflexivity]).
  - destruct (NewAgent E (proc s)) as [x p']. cbn [agents].
    exists a. split; [|reflexivity].
    rewrite nth_error_app1; [exact Hj|]. apply nth_error_Some. congruence.
  - reflexivity.
  - apply wiring_Start.
  - unfold RecordSegment. destruct (negb (agentStarted (proc s))); reflexivity.
  - unfold RecordError. destruct (negb (agentStarted (proc s))); reflexivity.
  - reflexivity.
  - reflexivity.
  - reflexivity.
Qed.

Lemma wrap64_small x : - 2 ^ 63 <= x < 2 ^ 63 -> GoInt.wrap64 x = x.
Proof.
  intros H. unfold GoInt.wrap64, GoInt.wrap.
  change (2 ^ (64 - 1)) with (2 ^ 63).
  change (2 ^ 64) with (2 * 2 ^ 63).
  rewrite Z.mod_small; lia.
Qed.

Lemma nextId_exec o s j a :
  nth_error (agents s) j = Some a ->
  exists a', nth_error (agents (exec E o s)) j = Some a' /\
             nextId a'
             = match uuidCalls j [o] with
               | O => nextId a
               | S _ => GoInt.wrap64 (nextId a + 1)
               end.
Proof.
  intros Hj. destruct o; cbn [exec uuidCalls];
    try (rewrite (nth_error_call _ _ _ _ _ Hj); eexists; split; [reflexivity|];
         destruct (j =? i)%nat; [|reflexivity]).
  - destruct (NewAgent E (proc s)) as [x p']. cbn [agents].
    exists a. split; [|reflexivity].
    rewrite nth_error_app1; [exact Hj|]. apply nth_error_Some. congruence.
  - reflexivity.
  - apply nextId_Start.
  - unfold RecordSegment. destruct (negb (agentStarted (proc s))); reflexivity.
  - unfold RecordError. destruct (negb (agentStarted (proc s))); reflexivity.
  - reflexivity.
  - reflexivity.
  - rewrite (nth_error_call _ _ _ _ _ Hj). eexists. split; [reflexivity|].
    rewrite (Nat.eqb_sym i j). destruct (j =? i)%nat; reflexivity.
Qed.

Lemma uuidCalls_cons i o ops :
  uuidCalls i (o :: ops) = (uuidCalls i [o] + uuidCalls i ops)%nat.
Proof.
  destruct o; try reflexivity. cbn [uuidCalls].
  destruct (i0 =? i)%nat; reflexivity.
Qed.

End Fields.

(** X8.  The creation time, the lock and the nine collaborator references
    of an agent are never assigned after construction: through every
    sequence of operations each agent keeps the ones it had. *)
Theorem wiring_is_immutable (E : Env) (ops : list Op) (s : System) (i : nat)
    (a : Agent) :
  nth_error (agents s) i = Some a ->
  exists a', nth_error (agents (run E ops s)) i = Some a' /\
             wiring a' = wiring a.
Proof.
  revert s a. induction ops as [|o ops IH]; intros s a Hi.
  - exists a. split; [exact Hi|reflexivity].
  - cbn [run fold_left].
    destruct (wiring_exec E o s i a Hi) as (a1 & H1 & W1).
    destruct (IH _ _ H1) as (a2 & H2 & W2).
    exists a2. split; [exact H2|congruence].
Qed.

Lemma wiring_is_immutable_witness :
  exists a',
    nth_error
      (agents (run Sample.env
                   [OpConfigure 1 (Sample.options "h" true); OpStart 1;
                    OpUuid 1; OpStart 0; OpNewAgent]
                   Sample.sys2)) 1
    = Some a' /\
    wiring a' = wiring Sample.agent2.
Proof.
  apply (wiring_is_immutable Sample.env
           [OpConfigure 1 (Sample.options "h" true); OpStart 1; OpUuid 1;
            OpStart 0; OpNewAgent]
           Sample.sys2 1%nat Sample.agent2).
  reflexivity.
Defined.

(** X9.  The counter of an agent counts its identifier generations and
    nothing else: after any sequence of operations it has grown by the
    number of [uuid] calls made on that agent, as long as that stays within
    [int64]. *)
Theorem nextId_counts_uuid_calls (E : Env) (ops : list Op) (s : System)
    (i : nat) (a : Agent) :
  nth_error (agents s) i = Some a ->
  - 2 ^ 63 <= nextId a ->
  nextId a + Z.of_nat (uuidCalls i ops) < 2 ^ 63 ->
  exists a', nth_error (agents (run E ops s)) i = Some a' /\
             nextId a' = nextId a + Z.of_nat (uuidCalls i ops).
Proof.
  revert s a. induction ops as [|o ops IH]; intros s a Hi Hlo Hhi.
  - exists a. split; [exact Hi|]. cbn. lia.
  - cbn [run fold_left]. rewrite uuidCalls_cons in Hhi |- *.
    destruct (nextId_exec E o s i a Hi) as (a1 & H1 & N1).
    assert (N1' : nextId a1 = nextId a + Z.of_nat (uuidCalls i [o])).
    { rewrite N1. destruct (uuidCalls i [o]) as [|[|k]] eqn:Hk.
      - cbn. lia.
      - rewrite wrap64_small by lia. reflexivity.
      - exfalso. destruct o; try discriminate Hk. cbn [uuidCalls] in Hk.
        destruct (i0 =? i)%nat; discriminate Hk. }
    destruct (IH (exec E o s) a1 H1) as (a2 & H2 & N2); [lia|lia|].
    exists a2. split; [exact H2|]. lia.
Qed.

Lemma nextId_counts_uuid_calls_witness :
  exists a',
    nth_error
      (agents (run Sample.env
                   [OpUuid 0; OpStart 0; OpUuid 1; OpUuid 0; OpLog 0 "x" []]
                   Sample.sys2)) 0
    = Some a' /\
    nextId a' = 3.
Proof.
  apply (nextId_counts_uuid_calls Sample.env
           [OpUuid 0; OpStart 0; OpUuid 1; OpUuid 0; OpLog 0 "x" []]
           Sample.sys2 0%nat Sample.agent1).
  - reflexivity.
  - cbn. lia.
  - cbn. lia.
Defined.

(** ** More on the identifier generator *)

(** X10.  N sequential calls of [uuid] touch nothing but the counter and
    the environment: the agent comes back with its counter advanced by N
    (within [int64]) and every other field as it was, two readings are
    taken per call, and the started flag and the trace stay as they
    were. *)
Theorem uuids_only_advance_the_counter (E : Env) (n : nat) (a : Agent)
    (p : Proc) :
  - 2 ^ 63 <= nextId a ->
  nextId a + Z.of_nat n < 2 ^ 63 ->
  snd (fst (uuids E n a p)) = set_nextId (nextId a + Z.of_nat n) a /\
  snd (uuids E n a p)
  = mkProc (agentStarted p) (tick p + 2 * n) (next_ref p) (trace p).
Proof.
  revert a p. induction n as [|n IH]; intros a p Hlo Hhi.
  - cbn [uuids fst snd]. rewrite Z.add_0_r, Nat.mul_0_r, Nat.add_0_r.
    split; [destruct a|destruct p]; reflexivity.
  - cbn [uuids].
    destruct (uuid E a p) as [[id a1] p1] eqn:Hu.
    unfold uuid in Hu. cbn [time_Now_Unix rand_Intn] in Hu.
    injection Hu as _ <- <-.
    rewrite (wrap64_small (nextId a + 1)) by lia.
    match goal with |- context [uuids E n ?a1 ?p1] =>
      destruct (IH a1 p1) as [Ha Hp];
        [cbn [nextId set_nextId]; lia ..|];
        destruct (uuids E n a1 p1) as [[ids a2] p2]
    end.
    cbn [fst snd] in *. subst a2 p2. split.
    + replace (nextId a + Z.of_nat (S n)) with (nextId a + 1 + Z.of_nat n)
        by lia.
      reflexivity.
    + apply Proc_ext; cbn [advance agentStarted tick next_ref trace];
        try reflexivity.
      lia.
Qed.

Lemma uuids_only_advance_the_counter_witness :
  snd (fst (uuids Sample.env 11 Sample.agent1 (proc Sample.sys1)))
  = set_nextId 12 Sample.agent1.
Proof.
  apply (uuids_only_advance_the_counter Sample.env 11 Sample.agent1
           (proc Sample.sys1)); cbn; lia.
Defined.

(** X11.  At the largest [int64] the counter wraps: the next call of
    [uuid] leaves it at the smallest [int64], and the identifier is the
    digest of a text that ends in that negative number. *)
Theorem uuid_counter_wraps (E : Env) (a : Agent) (p : Proc) :
  nextId a = 2 ^ 63 - 1 ->
  nextId (snd (fst (uuid E a p))) = - 2 ^ 63 /\
  fst (fst (uuid E a p))
  = sha1String
      (GoInt.FormatInt (GoInt.wrap64 (env_unix E (tick p)))
         ++ GoInt.Itoa (env_rand E (S (tick p)) mod 1000000000)
         ++ "-9223372036854775808")%string.
Proof.
  intros H. unfold uuid. cbn [time_Now_Unix rand_Intn fst snd].
  cbn [nextId set_nextId advance tick]. rewrite H. split; reflexivity.
Qed.

Lemma uuid_counter_wraps_witness :
  nextId
    (snd (fst (uuid Sample.env (set_nextId (2 ^ 63 - 1) Sample.agent1)
                    (proc Sample.sys1))))
  = - 2 ^ 63.
Proof.
  apply (uuid_counter_wraps Sample.env
           (set_nextId (2 ^ 63 - 1) Sample.agent1) (proc Sample.sys1)).
  reflexivity.
Defined.

(** X12.  Every agent of a process carries a run identifier of forty
    lowercase hexadecimal digits, from its construction on and through
    every sequence of operations. *)
Theorem runId_is_always_hex40 (E : Env) (ops : list Op) (i : nat)
    (a : Agent) :
  nth_error (agents (run E ops boot)) i = Some a ->
  hex40 (runId a).
Proof.
  assert (H : forall s,
             Forall (fun x => hex40 (runId x)) (agents s) ->
             Forall (fun x => hex40 (runId x)) (agents (run E ops s))).
  { induction ops as [|o ops IH]; intros s Hs; [exact Hs|].
    cbn [run fold_left]. apply IH.
    assert (Hcall : forall j f,
               (forall x q, runId (fst (f x q)) = runId x) ->
               Forall (fun x => hex40 (runId x)) (agents (call j f s))).
    { intros j f Hf. destruct (call_cases j f s) as [->|(x & Hx & ->)];
        [exact Hs|].
      cbn [agents]. apply Forall_store; [exact Hs|].
      rewrite Hf. apply nth_error_In in Hx.
      rewrite Forall_forall in Hs. apply Hs, Hx. }
    destruct o; cbn [exec]; try (apply Hcall; intros x q).
    - destruct s as [q l]. cbn [proc agents] in *.
      apply Forall_app. split; [exact Hs|].
      constructor; [apply sha1String_hex40|constructor].
    - reflexivity.
    - apply runId_Start.
    - unfold RecordSegment. destruct (negb (agentStarted q)); reflexivity.
    - unfold RecordError. destruct (negb (agentStarted q)); reflexivity.
    - reflexivity.
    - reflexivity.
    - reflexivity. }
  intros Hi. specialize (H boot (Forall_nil _)).
  rewrite Forall_forall in H. apply H. apply nth_error_In in Hi. exact Hi.
Qed.

Lemma runId_is_always_hex40_witness :
  hex40 (runId Sample.agent2).
Proof.
  apply (runId_is_always_hex40 Sample.env [OpNewAgent; OpNewAgent] 1%nat
           Sample.agent2).
  vm_compute. reflexivity.
Defined.

(** ** More on [RecordError] *)

(** X13.  A nil payload is not dropped: once the started flag is set,
    [RecordError] with nil forwards an error with text "<nil>" to the
    agent's error reporter, like any other payload that is not an error. *)
Theorem RecordError_nil_payload (a : Agent) (group : string)
    (skipFrames : Z) (p : Proc) :
  agentStarted p = true ->
  exists n,
    RecordError a group None skipFrames p
    = (a, emit (CallRecordError (errorReporter a) group
                                (ErrorString "<nil>") n) p).
Proof.
  intros Hs. unfold RecordError. rewrite Hs. cbn [negb].
  eexists. reflexivity.
Qed.

Lemma RecordError_nil_payload_witness :
  exists n,
    RecordError Sample.agent2 "db" None 0 Sample.started
    = (Sample.agent2,
       emit (CallRecordError (errorReporter Sample.agent2) "db"
                             (ErrorString "<nil>") n) Sample.started).
Proof.
  apply (RecordError_nil_payload Sample.agent2 "db" 0 Sample.started).
  reflexivity.
Defined.



(** ** More on the recovery wrapper *)

Lemma append_assoc (s t u : string) :
  ((s ++ t) ++ u)%string = (s ++ t ++ u)%string.
Proof. induction s as [|c s IH]; cbn; [|rewrite IH]; reflexivity. Qed.

(** A [%v] between two texts free of percent signs prints its operand
    between them. *)
Lemma Sprintf_v_between s t v :
  string_forall not_percent s = true ->
  string_forall not_percent t = true ->
  Sprintf (s ++ String "%" (String "v" t))%string [v]
  = (s ++ formatV v ++ t)%string.
Proof.
  intros Hs Ht. induction s as [|c s IH].
  - cbn [String.append Sprintf]. rewrite (Sprintf_plain t Ht). reflexivity.
  - cbn [string_forall] in Hs. apply andb_prop in Hs. destruct Hs as [Hc Hs].
    specialize (IH Hs). cbn [String.append].
    destruct c as [[] [] [] [] [] [] [] []];
      try discriminate Hc; cbn [Sprintf]; rewrite IH; reflexivity.
Qed.

Lemma guarded_returns (E : Env) body a p :
  fst (fst (guarded E body a p)) = Returns.
Proof.
  unfold guarded. destruct (body a p) as [[c a'] p'].
  unfold recoverAndLog, recover. destruct c; reflexivity.
Qed.

(** X15.  A panic is reported once.  A guarded operation wrapped in a
    second guard behaves as with one guard alone: the inner
    [recoverAndLog] stops the panic, and the outer one finds nothing to
    recover and writes nothing. *)
Theorem guarded_twice_is_guarded_once (E : Env) (body : Body) (a : Agent)
    (p : Proc) :
  guarded E (guarded E body) a p = guarded E body a p.
Proof.
  unfold guarded at 1.
  pose proof (guarded_returns E body a p) as Hr.
  destruct (guarded E body a p) as [[c a'] p']. cbn [fst] in Hr. subst c.
  reflexivity.
Qed.

(** X16.  The line written for a recovered panic shows the value of the
    panic as it is, percent signs included: the value is an operand of the
    format, not part of it.  With the debug flag on and a time stamp free
    of percent signs, the line is the stamp in brackets, the version tag,
    the words "Recovered from panic in agent: ", the [%v] rendering of the
    value and a newline. *)
Theorem recovered_panic_is_shown_verbatim (E : Env) (body : Body)
    (a : Agent) (p : Proc) (v : value) (a' : Agent) (p' : Proc) :
  body a p = (Panics v, a', p') ->
  Debug a' = true ->
  string_forall not_percent (env_stamp E (tick p')) = true ->
  trace (snd (guarded E body a p))
  = trace p'
      ++ [Stdout ("[" ++ env_stamp E (tick p')
                    ++ "] StackImpact 1.2.2: Recovered from panic in agent: "
                    ++ formatV (Some v) ++ nl)%string].
Proof.
  intros Hb Hd Hst. unfold guarded. rewrite Hb.
  unfold recoverAndLog, recover, log. rewrite Hd.
  cbn [time_Now_Stamp emit advance snd trace]. do 3 f_equal.
  set (stamp := env_stamp E (tick p')) in *.
  set (head := ("[" ++ stamp
                  ++ "] StackImpact 1.2.2: Recovered from panic in agent: ")
               %string).
  transitivity (Sprintf (head ++ String "%" (String "v" nl))%string [Some v]).
  - f_equal. unfold head. cbn [String.append]. f_equal.
    rewrite append_assoc. reflexivity.
  - rewrite Sprintf_v_between.
    + unfold head. cbn [String.append]. f_equal.
      rewrite append_assoc. reflexivity.
    + unfold head. cbn [String.append string_forall].
      rewrite string_forall_app, Hst. reflexivity.
    + reflexivity.
Qed.

Lemma recovered_panic_is_shown_verbatim_witness :
  trace
    (snd (guarded Sample.env
            (fun a p => (Panics (VString "100% of %v"), a, p))
            (configure (Sample.options "" true) Sample.agent2)
            Sample.started))
  = trace Sample.started
      ++ [Stdout ("[" ++ "Jul 14 02:40:00.000"
                    ++ "] StackImpact 1.2.2: Recovered from panic in agent: "
                    ++ "100% of %v" ++ nl)%string].
Proof.
  apply (recovered_panic_is_shown_verbatim Sample.env
           (fun a p => (Panics (VString "100% of %v"), a, p))
           (configure (Sample.options "" true) Sample.agent2) Sample.started
           (VString "100% of %v")
           (configure (Sample.options "" true) Sample.agent2) Sample.started);
    reflexivity.
Defined.

(** ** The confirmation line *)

(** X17.  With the debug flag on and a host name already set, the [Start]
    that finds the flag unset makes the eight [start] calls and only then
    writes the confirmation: the trace grows by the calls followed by one
    line, "Agent started." behind the stamp and the version tag, and one
    clock reading is taken. *)
Theorem first_Start_confirms_after_the_calls (E : Env) (a : Agent)
    (p : Proc) :
  agentStarted p = false ->
  Debug a = true ->
  HostName a <> "" ->
  string_forall not_percent (env_stamp E (tick p)) = true ->
  fst (Start E a p) = a /\
  snd (Start E a p)
  = mkProc true (S (tick p)) (next_ref p)
      (trace p ++ startCallEvents a
         ++ [Stdout ("[" ++ env_stamp E (tick p)
                       ++ "] StackImpact 1.2.2: Agent started." ++ nl)%string]).
Proof.
  intros Hs Hd Hh Hst. unfold Start. rewrite Hs.
  destruct (String.eqb_spec (HostName a) "") as [He|_]; [contradiction|].
  cbn [fst snd]. split; [reflexivity|].
  unfold log. rewrite Hd.
  apply Proc_ext;
    cbn [time_Now_Stamp agentStarted tick next_ref trace emit advance
         set_agentStarted]; try reflexivity.
  rewrite Sprintf_plain.
  - repeat rewrite <- app_assoc. reflexivity.
  - cbn [String.append string_forall]. rewrite string_forall_app, Hst.
    reflexivity.
Qed.

Lemma first_Start_confirms_after_the_calls_witness :
  fst (Start Sample.env
             (configure (Sample.options "db-7" true) Sample.agent1)
             (proc Sample.sys2))
  = configure (Sample.options "db-7" true) Sample.agent1.
Proof.
  apply (first_Start_confirms_after_the_calls Sample.env
           (configure (Sample.options "db-7" true) Sample.agent1)
           (proc Sample.sys2)).
  - reflexivity.
  - reflexivity.
  - discriminate.
  - reflexivity.
Defined.
